(** * TumbleBit reference implementation: the LibreSSL binding layer

    A shallow embedding of [reference_implementation/tumblebit/__init__.py].
    The module is a [ctypes] binding: it declares the foreign functions of
    LibreSSL it uses (result type, argument types, result check) and adds a
    few helpers written in Python ([_check_res_void_p], [BN_num_bytes],
    [BNToBin], [BinToBN]).

    The development has four layers.
    - Python values, exceptions and the monad in which the helpers run.
    - [libssl]: the reference behaviour of the C functions behind the
      binding, following LibreSSL's manual pages and [bn_lib.c]; a BIGNUM is
      an integer stored at an address of the native heap.
    - the [ctypes] call protocol and the helpers, one definition per source
      function, in the order of the source.
    - the blinding engine, of which the source only declares the entry
      points; it is modelled from the design document. *)

From Stdlib Require Import ZArith Lia Strings.Byte String Zcong Zmod.ZmodInv.
From stdpp Require Import base option list gmap.

Local Open Scope Z_scope.

(** ** Bytes and machine integers *)

Definition byte_to_Z (b : byte) : Z := Z.of_N (Byte.to_N b).

Definition byte_of_Z (z : Z) : byte :=
  default x00 (Byte.of_N (Z.to_N (z `mod` 256))).

(** A C [int] holding [z]: the low 32 bits, read as a signed number. This is
    what [ctypes] stores when a Python integer is passed for a parameter of
    type [c_int]. *)
Definition c_int (z : Z) : Z := (z + 2 ^ 31) `mod` 2 ^ 32 - 2 ^ 31.

(** Addresses are machine words; address 0 is the NULL pointer. *)
Definition pointer : Type := Z.
Definition NULL : pointer := 0.
Definition pointer_bits : Z := 64.

(** ** Python values *)

(** The values that reach the helpers: [None], integers, byte strings, text
    strings and [ctypes.c_void_p] instances. A [c_void_p] instance holding
    address 0 is the one Python prints as [c_void_p(None)]. *)
Inductive pyval : Type :=
| PyNone
| PyInt (z : Z)
| PyBytes (s : list byte)
| PyStr (s : string)
| PyVoidP (p : pointer).

Inductive exn : Type :=
| LibreSSLException (errno : Z) (strerror : string)
| TypeError
| ValueError
| IndexError
| ArgumentError.

(** A call returns a value, raises an exception, or reaches undefined
    behaviour of the native code ([Crashed]: a native function followed an
    address that holds no BIGNUM, or wrote outside the buffer it was
    handed). C says nothing of a run past that point, and neither does the
    model: the run stops there. *)
Inductive outcome (A : Type) : Type :=
| Returned (a : A)
| Raised (e : exn)
| Crashed.
Arguments Returned {A} a.
Arguments Raised {A} e.
Arguments Crashed {A}.

(** ** The process state *)

Record world : Type := World {
  (** live BIGNUMs: address to value *)
  bn_heap : gmap positive Z;
  (** results of the coming allocation requests of the native library
      ([true]: memory is granted); once the list is used up every request
      is granted *)
  malloc_plan : list bool;
  (** LibreSSL's error queue, oldest entry first *)
  err_queue : list Z;
  (** the error strings loaded by [SSL_load_error_strings] *)
  err_strings : gmap Z string;
  (** bytes a native function wrote outside the string buffer it was handed,
      with their offset from the start of that buffer; such a write is
      undefined behaviour, and the call that made it ends in [Crashed] *)
  stray_writes : list (Z * byte)
}.

Definition set_bn_heap (h : gmap positive Z) (w : world) : world :=
  World h (malloc_plan w) (err_queue w) (err_strings w) (stray_writes w).
Definition set_malloc_plan (pl : list bool) (w : world) : world :=
  World (bn_heap w) pl (err_queue w) (err_strings w) (stray_writes w).
Definition set_err_queue (q : list Z) (w : world) : world :=
  World (bn_heap w) (malloc_plan w) q (err_strings w) (stray_writes w).
Definition set_stray_writes (l : list (Z * byte)) (w : world) : world :=
  World (bn_heap w) (malloc_plan w) (err_queue w) (err_strings w) l.

(** ** The monad of the helpers: state and failure *)

Definition py (A : Type) : Type := world → outcome A * world.

#[global] Instance py_ret : MRet py := λ A a w, (Returned a, w).

#[global] Instance py_bind : MBind py := λ A B f m w,
  match m w with
  | (Returned a, w') => f a w'
  | (Raised e, w') => (Raised e, w')
  | (Crashed, w') => (Crashed, w')
  end.

Definition raise {A : Type} (e : exn) : py A := λ w, (Raised e, w).
Definition crash {A : Type} : py A := λ w, (Crashed, w).
Definition get_world : py world := λ w, (Returned w, w).
Definition modify_world (f : world → world) : py unit := λ w, (Returned (), f w).

(** ** LibreSSL: reference behaviour of the native functions

    The C functions are not part of the module; what follows states what
    their manual pages and [bn_lib.c] say of them.
    - [BN_new] returns a new BIGNUM of value 0, or NULL and an error in the
      queue when the allocation fails.
    - [BN_num_bits] returns the number of significant bits, and
      [BN_num_bytes] is the macro [(BN_num_bits(a)+7)/8].
    - [BN_bn2bin(a, to)] stores the absolute value of [a], big-endian, at
      [to], which has to point to [BN_num_bytes(a)] bytes, and returns that
      length: for the value zero it writes nothing and returns 0. It has no
      failure result, and a destination with less room is undefined
      behaviour.
    - [BN_bin2bn(s, len, ret)] reads the [len] bytes at [s] as a big-endian
      non-negative number into [ret] (a new BIGNUM when [ret] is NULL) and
      returns it, or NULL on error.
    - [BN_mod_inverse(r, a, n, ctx)] returns the inverse of [a] modulo [n],
      or NULL on error, among others when there is no inverse.
    - [ERR_get_error] takes the oldest error code from the queue.

    A BIGNUM is modelled by its value; LibreSSL refuses to build one of
    [2 ^ 31] bits or more, so the C [int] results below are exact. *)

Module libssl.

(** [ERR_PACK(l,f,r)] of [err.h]. *)
Definition ERR_PACK (l f r : Z) : Z :=
  Z.lor (Z.lor (Z.land l 255 ≪ 24) (Z.land f 4095 ≪ 12)) (Z.land r 4095).

Definition ERR_LIB_BN : Z := 3.
Definition ERR_R_MALLOC_FAILURE : Z := 65.
Definition BN_R_DIV_BY_ZERO : Z := 103.
Definition BN_R_NO_INVERSE : Z := 108.

(** [BNerror(r)]: queue an error of the BN library. *)
Definition BNerror (r : Z) : py unit :=
  modify_world (λ w, set_err_queue (err_queue w ++ [ERR_PACK ERR_LIB_BN 4095 r]) w).

(** One allocation request of the library: the next answer of the plan. *)
Definition malloc : py bool := λ w,
  match malloc_plan w with
  | [] => (Returned true, w)
  | granted :: pl => (Returned granted, set_malloc_plan pl w)
  end.

(** The BIGNUM stored at [p]. Following a pointer to anything else (NULL,
    freed or foreign memory) is undefined in C; the model stops there. *)
Definition deref (p : pointer) : py Z := λ w,
  match p with
  | Z.pos a =>
      match bn_heap w !! a with
      | Some x => (Returned x, w)
      | None => (Crashed, w)
      end
  | _ => (Crashed, w)
  end.

Definition store (a : positive) (x : Z) : py unit :=
  modify_world (λ w, set_bn_heap (<[a := x]> (bn_heap w)) w).

(** [BN_new()]: a new BIGNUM of value zero, or NULL when no memory (or no
    address) is left. *)
Definition BN_new : py pointer :=
  granted ← malloc;
  w ← get_world;
  let a := fresh (dom (bn_heap w)) in
  if granted && (Z.pos a <? 2 ^ pointer_bits) then
    _ ← store a 0; mret (Z.pos a)
  else
    _ ← BNerror ERR_R_MALLOC_FAILURE; mret NULL.

(** [BN_free(a)]: nothing for NULL. *)
Definition BN_free (p : pointer) : py unit :=
  if p =? NULL then mret ()
  else
    _ ← deref p;
    modify_world (λ w, set_bn_heap (delete (Z.to_pos p) (bn_heap w)) w).

(** Number of significant bits of the magnitude. *)
Definition bit_length (x : Z) : Z :=
  if x =? 0 then 0 else Z.log2 (Z.abs x) + 1.

Definition BN_num_bits (p : pointer) : py Z :=
  x ← deref p; mret (bit_length x).

(** The macro [BN_num_bytes(a)] of [bn.h]. *)
Definition num_bytes (x : Z) : Z := (bit_length x + 7) `div` 8.

(** The bytes [BN_bn2bin] produces, most significant first:
    [while (i--) *(to++) = (m >> (8 * i)) & 0xff]. *)
Fixpoint bn2bin_bytes (i : nat) (m : Z) : list byte :=
  match i with
  | O => []
  | S i' => byte_of_Z (Z.land (m ≫ (8 * Z.of_nat i')) 255) :: bn2bin_bytes i' m
  end.

(** [*to = b] for a pointer at offset [to] of the buffer [buf]. A write
    outside the buffer lands in memory that is not the buffer's (for a
    [ctypes] buffer, the object that owns it or the allocator's data); it
    is recorded, and [BN_bn2bin] below stops on it. *)
Definition poke (to : Z) (b : byte) (m : list byte * list (Z * byte))
  : list byte * list (Z * byte) :=
  if (0 <=? to) && (to <? Z.of_nat (length m.1))
  then (<[Z.to_nat to := b]> m.1, m.2)
  else (m.1, m.2 ++ [(to, b)]).

Fixpoint poke_bytes (to : Z) (bs : list byte) (m : list byte * list (Z * byte))
  : list byte * list (Z * byte) :=
  match bs with
  | [] => m
  | b :: bs' => poke_bytes (to + 1) bs' (poke to b m)
  end.

(** [BN_bn2bin(a, to)]: writes the magnitude of [a], big-endian, in
    [BN_num_bytes(a)] bytes from [to] on, and returns that number. The
    destination is the address [to] bytes after the start of [buf]. When
    every byte lands in the buffer the call returns; a byte written outside
    it is undefined behaviour. *)
Definition BN_bn2bin (p : pointer) (buf : list byte) (to : Z) : py (Z * list byte) :=
  x ← deref p;
  let n := num_bytes x in
  let m := poke_bytes to (bn2bin_bytes (Z.to_nat n) (Z.abs x)) (buf, []) in
  _ ← modify_world (λ w, set_stray_writes (stray_writes w ++ m.2) w);
  match m.2 with
  | [] => mret (n, m.1)
  | _ :: _ => crash
  end.

(** The number [BN_bin2bn] reads: [l = (l << 8) | *(s++)]. *)
Definition bin2bn_value (s : list byte) : Z :=
  foldl (λ l b, Z.lor (l ≪ 8) (byte_to_Z b)) 0 s.

(** [BN_bin2bn(s, len, ret)]: reads [len] bytes at [s] as a big-endian
    magnitude into [ret], or into a new BIGNUM when [ret] is NULL; NULL on
    failure ([len] negative, or no memory), and then [ret] keeps its value.
    [s] is [None] for a NULL pointer. For [len = 0] the value is 0 and no
    memory is asked for; otherwise room for the digits is requested (a BIGNUM
    that has room already skips the request in C, which only removes a way
    to fail). *)
Definition BN_bin2bn (s : option (list byte)) (len : Z) (ret : pointer) : py pointer :=
  if len <? 0 then mret NULL
  else
    bn ← (if ret =? NULL then BN_new else mret NULL);
    let r := if ret =? NULL then bn else ret in
    if r =? NULL then mret NULL
    else
      _ ← deref r;
      if len =? 0 then _ ← store (Z.to_pos r) 0; mret r
      else
        granted ← malloc;
        if (granted : bool) then
          match s with
          | Some bs =>
              _ ← store (Z.to_pos r) (bin2bn_value (take (Z.to_nat len) bs));
              mret r
          | None => crash
          end
        else
          _ ← BNerror ERR_R_MALLOC_FAILURE;
          _ ← BN_free bn;
          mret NULL.

(** The inverse of [a] modulo [n], when there is one. *)
Definition mod_inverse (a n : Z) : option Z :=
  if (Z.gcd a n =? 1) && negb (n =? 0) then Some (Z.invmod a (Z.abs n)) else None.

(** [BN_mod_inverse(ret, a, n, ctx)]: the inverse of [a] modulo [n], placed
    in [ret] (in a new BIGNUM when [ret] is NULL); NULL when there is no
    inverse or no memory. The scratch context [ctx] is not inspected. *)
Definition BN_mod_inverse (ret a n ctx : pointer) : py pointer :=
  va ← deref a;
  vn ← deref n;
  bn ← (if ret =? NULL then BN_new else mret NULL);
  let r := if ret =? NULL then bn else ret in
  if r =? NULL then mret NULL
  else
    _ ← deref r;
    match mod_inverse va vn with
    | Some i => _ ← store (Z.to_pos r) i; mret r
    | None =>
        _ ← BNerror (if vn =? 0 then BN_R_DIV_BY_ZERO else BN_R_NO_INVERSE);
        _ ← BN_free bn;
        mret NULL
    end.

(** [ERR_get_error()]: removes and returns the oldest error, 0 when the
    queue is empty. *)
Definition ERR_get_error : py Z := λ w,
  match err_queue w with
  | [] => (Returned 0, w)
  | e :: q => (Returned e, set_err_queue q w)
  end.

(** [ERR_error_string_n(e, buf, len)]: the text for [e], cut to [len - 1]
    characters. The generic text LibreSSL makes up for a code without a
    loaded string is left empty. *)
Definition ERR_error_string_n (e : Z) (len : Z) : py string :=
  w ← get_world;
  mret (String.substring 0 (Z.to_nat (len - 1)) (default EmptyString (err_strings w !! e))).

End libssl.

(** ** The [ctypes] call protocol *)

(** Result type [c_void_p]. [ctypes] hands a result of a fundamental type
    over as a native Python value (for [c_void_p] the documentation lists
    "int or None"): a pointer becomes an integer, and the NULL pointer
    becomes [None]. This value is the one the result check ([errcheck])
    receives as [val]. *)
Definition restype_c_void_p (p : pointer) : pyval :=
  if p =? NULL then PyNone else PyInt p.

(** Parameter type [c_void_p]: [None] is NULL, an integer is an address (its
    low bits), a [c_void_p] instance is the address it holds. A string is
    accepted too and stands for the address of its characters; no BIGNUM
    lives there and the native call that follows is undefined. *)
Definition from_param_c_void_p (v : pyval) : py pointer :=
  match v with
  | PyNone => mret NULL
  | PyInt z => mret (z `mod` 2 ^ pointer_bits)
  | PyVoidP p => mret p
  | PyBytes _ | PyStr _ => crash
  end.

(** Parameter type [c_char_p]: a byte string or [None]. *)
Definition from_param_c_char_p (v : pyval) : py (option (list byte)) :=
  match v with
  | PyNone => mret None
  | PyBytes s => mret (Some s)
  | _ => raise ArgumentError
  end.

(** Parameter type [c_int]. *)
Definition from_param_c_int (v : pyval) : py Z :=
  match v with
  | PyInt z => mret (c_int z)
  | _ => raise ArgumentError
  end.

(** The constructor [ctypes.c_void_p(val)]. *)
Definition c_void_p (val : pyval) : py pyval :=
  match val with
  | PyNone => mret (PyVoidP NULL)
  | PyInt z => mret (PyVoidP (z `mod` 2 ^ pointer_bits))
  | _ => raise TypeError
  end.

(** [val == k] for an integer literal [k]: true for the integer [k] only. *)
Definition py_eq_int (val : pyval) (k : Z) : bool :=
  match val with
  | PyInt z => z =? k
  | _ => false
  end.

(** [sep.join(args)]: every item has to be a text string. *)
Fixpoint str_items (args : list pyval) : option (list string) :=
  match args with
  | [] => Some []
  | PyStr s :: args' => cons s <$> str_items args'
  | _ :: _ => None
  end.

Definition str_join (sep : string) (args : list pyval) : py string :=
  match str_items args with
  | Some items => mret (String.concat sep items)
  | None => raise TypeError
  end.

(** [str(b)] for a byte string of printable characters. *)
Definition str_of_bytes (text : string) : string :=
  String.append "b'" (String.append text "'").

(** [len(s)] *)
Definition len (s : pyval) : py Z :=
  match s with
  | PyBytes b => mret (Z.of_nat (length b))
  | PyStr t => mret (Z.of_nat (String.length t))
  | _ => raise TypeError
  end.

(** [ctypes.create_string_buffer(size)]: [size] zero bytes. Python is taken
    to have the memory for them: [ctypes] raises [OverflowError] for a size
    that no C [ssize_t] holds and [MemoryError] when the allocation fails,
    and the model leaves both out. It speaks of the calls for which the
    buffer can be made. *)
Definition create_string_buffer (size : Z) : py (list byte) :=
  if size <? 0 then raise ValueError
  else mret (replicate (Z.to_nat size) x00).

(** [data[i] = v] on a character buffer. *)
Definition setitem (i v : Z) (data : list byte) : py (list byte) :=
  let n := Z.of_nat (length data) in
  let j := if i <? 0 then i + n else i in
  if (0 <=? j) && (j <? n) then
    if (0 <=? v) && (v <? 256) then mret (<[Z.to_nat j := byte_of_Z v]> data)
    else raise TypeError
  else raise IndexError.

(** [for x in xs: s = body(x, s)] *)
Fixpoint for_each {A S : Type} (xs : list A) (body : A → S → py S) (s : S) : py S :=
  match xs with
  | [] => mret s
  | x :: xs' => s' ← body x s; for_each xs' body s'
  end.

(** [range(n)] *)
Definition range (n : Z) : list Z := seqZ 0 n.

(** ** The binding *)

(** [_ssl.ERR_get_error()]: no result type is declared, so the result is
    read as a C [int]. *)
Definition _ssl_ERR_get_error : py Z :=
  e ← libssl.ERR_get_error; mret (c_int e).

Definition _ssl_ERR_error_string_n (errno : Z) (size : Z) : py string :=
  libssl.ERR_error_string_n errno size.

(** [_check_res_void_p(val, func, args)], the result check installed on the
    functions that return a pointer. [func_name] is [func.__name__]. *)
Definition _check_res_void_p (val : pyval) (func_name : string) (args : list pyval)
  : py pyval :=
  if py_eq_int val 0 then
    errno ← _ssl_ERR_get_error;
    errmsg ← _ssl_ERR_error_string_n errno 120;
    joined ← str_join "," args;
    let msg := String.append func_name (String.append "(" (String.append joined "): ")) in
    raise (LibreSSLException errno (String.append msg (str_of_bytes errmsg)))
  else c_void_p val.

(** [_print_ssl_error()] *)
Definition _print_ssl_error : py pyval :=
  errno ← _ssl_ERR_get_error;
  errmsg ← _ssl_ERR_error_string_n errno 120;
  raise (LibreSSLException errno (str_of_bytes errmsg)).

(** A foreign function with [restype = c_void_p] and
    [errcheck = _check_res_void_p]: the native result is converted by the
    result type, then handed to the check, whose result is the result of
    the call. *)
Definition checked_void_p (func_name : string) (args : list pyval)
  (native : py pointer) : py pyval :=
  p ← native;
  _check_res_void_p (restype_c_void_p p) func_name args.

Definition _ssl_BN_new : py pyval :=
  checked_void_p "BN_new" [] libssl.BN_new.

Definition _ssl_BN_free (bn : pyval) : py pyval :=
  p ← from_param_c_void_p bn;
  _ ← libssl.BN_free p;
  mret PyNone.

Definition _ssl_BN_num_bits (bn : pyval) : py Z :=
  p ← from_param_c_void_p bn;
  libssl.BN_num_bits p.

(** [_ssl.BN_bn2bin(bn, ctypes.byref(data, offset))] *)
Definition _ssl_BN_bn2bin (bn : pyval) (data : list byte) (offset : Z)
  : py (Z * list byte) :=
  p ← from_param_c_void_p bn;
  libssl.BN_bn2bin p data offset.

Definition _ssl_BN_bin2bn (s n bn : pyval) : py pyval :=
  cs ← from_param_c_char_p s;
  cn ← from_param_c_int n;
  p ← from_param_c_void_p bn;
  checked_void_p "BN_bin2bn" [s; n; bn] (libssl.BN_bin2bn cs cn p).

Definition _ssl_BN_mod_inverse (ret a n ctx : pyval) : py pyval :=
  pr ← from_param_c_void_p ret;
  pa ← from_param_c_void_p a;
  pn ← from_param_c_void_p n;
  pc ← from_param_c_void_p ctx;
  checked_void_p "BN_mod_inverse" [ret; a; n; ctx] (libssl.BN_mod_inverse pr pa pn pc).

(** ** EC *)

(** [class ECDSA_SIG_st(ctypes.Structure)]: the two fields [r] and [s], of
    type [c_void_p]; each holds a machine word. *)
Record ECDSA_SIG_st : Type := {
  sig_r : pointer;
  sig_s : pointer
}.

(** Reading a field of type [c_void_p] ([self.r]): as for a result of that
    type, NULL reads as [None] and any other address as an integer. *)
Definition getfield_c_void_p (p : pointer) : pyval := restype_c_void_p p.

(** [ECDSA_SIG_st.__del__(self)] *)
Definition ECDSA_SIG_st_del (self : ECDSA_SIG_st) : py pyval :=
  _ ← _ssl_BN_free (getfield_c_void_p (sig_r self));
  _ ← _ssl_BN_free (getfield_c_void_p (sig_s self));
  mret PyNone.

(** ** Helpers *)

(** [_free_bn(x)]: frees [x] unless it is [None]. *)
Definition _free_bn (x : pyval) : py pyval :=
  match x with
  | PyNone => mret PyNone
  | _ => _ssl_BN_free x
  end.

(** [return (_ssl.BN_num_bits(bn) + 7) // 8] *)
Definition BN_num_bytes (bn : pyval) : py Z :=
  bits ← _ssl_BN_num_bits bn;
  mret ((bits + 7) `div` 8).

(** [BNToBin(bn, size)]. [r] is the result of the call of [BN_bn2bin]: the
    integer the source names [ret], and the buffer [data] as the call left
    it. The last line is [return data.raw[:size]]. *)
Definition BNToBin (bn : pyval) (size : Z) : py pyval :=
  match bn with
  | PyNone => mret PyNone
  | _ =>
      data ← create_string_buffer size;
      nbytes ← BN_num_bytes bn;
      let offset := size - nbytes in
      r ← _ssl_BN_bn2bin bn data offset;
      if r.1 =? 0 then mret PyNone
      else
        data ← for_each (range offset) (λ i, setitem i 0) r.2;
        mret (PyBytes (take (Z.to_nat size) data))
  end.

(** [BinToBN(s)]. The arguments of [BN_bin2bn] are evaluated after
    [BN_new] was called; the function returns [bn], not [ret]. *)
Definition BinToBN (s : pyval) : py pyval :=
  bn ← _ssl_BN_new;
  n ← len s;
  ret ← _ssl_BN_bin2bn s (PyInt n) bn;
  match ret with
  | PyNone => mret PyNone
  | _ => mret bn
  end.

(** ** The RSA primitive and the blinding engine

    The binding declares [BN_BLINDING_new], [BN_BLINDING_convert_ex],
    [BN_BLINDING_invert_ex] and the four raw RSA entry points, and calls none
    of them: what they compute is fixed by the design document alone. *)

Module Blinding.

(** Modelled from the spec: the RSA key material, which the source never
    builds in Python (it lives behind [RSA_new] and [RSA_generate_key_ex]).
    A key holds the modulus [n], the public exponent [e], the private
    exponent [d] and the two prime factors of [n]. *)
Record RsaKey : Type := {
  rsa_n : Z;
  rsa_e : Z;
  rsa_d : Z;
  rsa_p : Z;
  rsa_q : Z
}.

(** Modelled from the spec: a well-formed private key, the kind [generate]
    produces. The modulus is the product of two distinct primes and [d]
    undoes [e]: [e * d] is 1 modulo [p - 1] and modulo [q - 1]. *)
Definition RsaKey_ok (k : RsaKey) : Prop :=
  Z.prime (rsa_p k) ∧ Z.prime (rsa_q k) ∧ rsa_p k ≠ rsa_q k ∧
  rsa_n k = rsa_p k * rsa_q k ∧
  0 < rsa_e k ∧ 0 < rsa_d k ∧
  (rsa_p k - 1 | rsa_e k * rsa_d k - 1) ∧
  (rsa_q k - 1 | rsa_e k * rsa_d k - 1).

Definition exponent (k : RsaKey) (use_private : bool) : Z :=
  if use_private then rsa_d k else rsa_e k.

(** Modelled from the spec: [raw_encrypt] and [raw_decrypt], the unpadded
    primitive [input ^ exponent mod n] of the engine behind
    [RSA_private_encrypt] and its siblings. *)
Definition raw_op (k : RsaKey) (use_private : bool) (x : Z) : Z :=
  x ^ exponent k use_private `mod` rsa_n k.






End Blinding.

(** ** Notions used in the statements *)

(** A computation that raises no exception, in any state. *)
Definition never_raises {A : Type} (m : py A) : Prop :=
  ∀ w e, (m w).1 ≠ Raised e.

(** The address [BN_new] hands out next. *)
Definition next_address (w : world) : positive := fresh (dom (bn_heap w)).

(** The native library gets the memory it asks for. *)
Definition memory_granted (w : world) : Prop :=
  Forall (λ g, g = true) (malloc_plan w) ∧
  Z.pos (next_address w) < 2 ^ pointer_bits.

(** The primitive [BN_bn2bin] reports failure to [BNToBin]: the buffer is
    made, the byte count is read, and the call comes back with 0. *)
Definition bn2bin_reports_zero (bn : pyval) (size : Z) (w : world) : Prop :=
  ∃ data nbytes r w1 w2 w3,
    create_string_buffer size w = (Returned data, w1) ∧
    BN_num_bytes bn w1 = (Returned nbytes, w2) ∧
    _ssl_BN_bn2bin bn data (size - nbytes) w2 = (Returned r, w3) ∧
    r.1 = 0.

(** The least [k] with [a ≤ b * k], for a positive [b]. *)
Definition ceil_div (a b : Z) : Z := - ((- a) `div` b).

(** A state that holds one BIGNUM, of value [x], at address 1: no error is
    queued and no allocation is set to fail. *)
Definition world_with (x : Z) : world := World {[1%positive := x]} [] [] ∅ [].

(** A state that holds the BIGNUMs 2 and 4 at addresses 1 and 2. *)
Definition world_2_4 : world :=
  World (<[2%positive := 4]> {[1%positive := 2]}) [] [] ∅ [].

(** A state without BIGNUMs in which the allocation requests of the native
    library get the answers [plan]. *)
Definition world_short_of_memory (plan : list bool) : world :=
  World ∅ plan [] ∅ [].


(** A computation that leaves the BIGNUM at [a], of value [x], in place,
    and whose results satisfy [R]. *)
Definition keeps {A : Type} (a : positive) (x : Z) (m : py A) (R : A → Prop) : Prop :=
  ∀ w, bn_heap w !! a = Some x →
       bn_heap (m w).2 !! a = Some x ∧ ∀ v, (m w).1 = Returned v → R v.

(** * Properties *)

(** ** Bytes and bit lengths *)

Lemma byte_to_Z_range (b : byte) : 0 ≤ byte_to_Z b < 256.
Proof.
  unfold byte_to_Z. pose proof (Byte.to_N_bounded b). lia.
Qed.

Lemma byte_to_of_Z (z : Z) : byte_to_Z (byte_of_Z z) = z `mod` 256.
Proof.
  unfold byte_to_Z, byte_of_Z.
  assert (Hr : 0 ≤ z `mod` 256 < 256) by (apply Z.mod_pos_bound; lia).
  destruct (Byte.of_N (Z.to_N (z `mod` 256))) as [b|] eqn:Hb.
  - apply Byte.to_of_N in Hb. simpl. rewrite Hb. lia.
  - apply Byte.of_N_None_iff in Hb. lia.
Qed.

Lemma byte_of_to_Z (b : byte) : byte_of_Z (byte_to_Z b) = b.
Proof.
  unfold byte_of_Z. rewrite Z.mod_small by apply byte_to_Z_range.
  unfold byte_to_Z. rewrite N2Z.id, Byte.of_to_N. reflexivity.
Qed.

Lemma c_int_small (z : Z) : - 2 ^ 31 ≤ z < 2 ^ 31 → c_int z = z.
Proof.
  intros Hz. unfold c_int. rewrite Z.mod_small; lia.
Qed.

Lemma bit_length_nonneg (x : Z) : 0 ≤ libssl.bit_length x.
Proof.
  unfold libssl.bit_length. destruct (Z.eqb_spec x 0); [lia|].
  pose proof (Z.log2_nonneg (Z.abs x)). lia.
Qed.

Lemma bit_length_zero_iff (x : Z) : libssl.bit_length x = 0 ↔ x = 0.
Proof.
  unfold libssl.bit_length. destruct (Z.eqb_spec x 0) as [->|Hx]; [tauto|].
  pose proof (Z.log2_nonneg (Z.abs x)). split; [lia|tauto].
Qed.

(** The bit length is the number of binary digits of the magnitude. *)
Lemma bit_length_spec (x : Z) :
  x ≠ 0 → 2 ^ (libssl.bit_length x - 1) ≤ Z.abs x < 2 ^ libssl.bit_length x.
Proof.
  intros Hx. unfold libssl.bit_length. destruct (Z.eqb_spec x 0); [done|].
  replace (Z.log2 (Z.abs x) + 1 - 1) with (Z.log2 (Z.abs x)) by lia.
  replace (Z.log2 (Z.abs x) + 1) with (Z.succ (Z.log2 (Z.abs x))) by lia.
  apply Z.log2_spec. lia.
Qed.

Lemma bit_length_bound (x b : Z) :
  0 ≤ b → libssl.bit_length x ≤ b → Z.abs x < 2 ^ b.
Proof.
  intros Hb Hle. destruct (Z.eq_dec x 0) as [->|Hx].
  - simpl. apply Z.pow_pos_nonneg; lia.
  - pose proof (bit_length_spec x Hx) as [_ Hlt].
    eapply Z.lt_le_trans; [exact Hlt|].
    apply Z.pow_le_mono_r; lia.
Qed.

Lemma num_bytes_nonneg (x : Z) : 0 ≤ libssl.num_bytes x.
Proof.
  unfold libssl.num_bytes. pose proof (bit_length_nonneg x).
  apply Z.div_pos; lia.
Qed.

Lemma num_bytes_zero_iff (x : Z) : libssl.num_bytes x = 0 ↔ x = 0.
Proof.
  unfold libssl.num_bytes.
  pose proof (bit_length_nonneg x).
  split; intros H0.
  - apply bit_length_zero_iff.
    apply Z.div_small_iff in H0; lia.
  - subst x. reflexivity.
Qed.

(** [num_bytes] is the least number of bytes that hold the bits. *)
Lemma num_bytes_spec (x : Z) :
  8 * (libssl.num_bytes x - 1) < libssl.bit_length x ≤ 8 * libssl.num_bytes x.
Proof.
  unfold libssl.num_bytes.
  pose proof (Z.div_mod (libssl.bit_length x + 7) 8 ltac:(lia)).
  pose proof (Z.mod_pos_bound (libssl.bit_length x + 7) 8 ltac:(lia)).
  lia.
Qed.

Lemma num_bytes_le_iff (x size : Z) :
  libssl.num_bytes x ≤ size ↔ libssl.bit_length x ≤ 8 * size.
Proof.
  pose proof (num_bytes_spec x). lia.
Qed.

(** ** Big-endian byte strings *)

Lemma lor_shiftl_byte (l b : Z) : 0 ≤ b < 256 → Z.lor (l ≪ 8) b = l * 256 + b.
Proof.
  intros Hb. rewrite Z.shiftl_mul_pow2 by lia. change (2 ^ 8) with 256.
  symmetry. apply Z.add_nocarry_lor.
  apply Z.bits_inj'. intros n Hn.
  rewrite Z.land_spec, Z.bits_0.
  destruct (Z.lt_ge_cases n 8) as [Hlt|Hge].
  - change 256 with (2 ^ 8). rewrite Z.mul_pow2_bits_low by lia. reflexivity.
  - rewrite (Z.bits_above_log2 b n), andb_false_r; [reflexivity|lia|].
    destruct (Z.eq_dec b 0) as [->|Hb0]; [simpl; lia|].
    eapply Z.lt_le_trans; [|exact Hge].
    apply Z.log2_lt_pow2; [lia|]. change (2 ^ 8) with 256. lia.
Qed.

Lemma bin2bn_foldl (s : list byte) (acc : Z) :
  foldl (λ l b, Z.lor (l ≪ 8) (byte_to_Z b)) acc s
  = acc * 256 ^ Z.of_nat (length s) + libssl.bin2bn_value s.
Proof.
  unfold libssl.bin2bn_value. revert acc.
  induction s as [|b s IH]; intros acc.
  - simpl. lia.
  - cbn [foldl length]. rewrite IH, (IH (Z.lor _ _)).
    rewrite !lor_shiftl_byte by apply byte_to_Z_range.
    rewrite Nat2Z.inj_succ, Z.pow_succ_r by lia. lia.
Qed.

Lemma bin2bn_value_cons (b : byte) (s : list byte) :
  libssl.bin2bn_value (b :: s)
  = byte_to_Z b * 256 ^ Z.of_nat (length s) + libssl.bin2bn_value s.
Proof.
  unfold libssl.bin2bn_value at 1. cbn [foldl].
  rewrite bin2bn_foldl, lor_shiftl_byte by apply byte_to_Z_range. lia.
Qed.

Lemma bin2bn_value_app (s1 s2 : list byte) :
  libssl.bin2bn_value (s1 ++ s2)
  = libssl.bin2bn_value s1 * 256 ^ Z.of_nat (length s2) + libssl.bin2bn_value s2.
Proof.
  unfold libssl.bin2bn_value at 1. rewrite foldl_app.
  rewrite bin2bn_foldl. reflexivity.
Qed.

Lemma bin2bn_value_zeros (k : nat) : libssl.bin2bn_value (replicate k x00) = 0.
Proof.
  induction k as [|k IH]; [reflexivity|].
  cbn [replicate]. rewrite bin2bn_value_cons, IH. reflexivity.
Qed.


Lemma length_bn2bin_bytes (n : nat) (m : Z) : length (libssl.bn2bin_bytes n m) = n.
Proof.
  induction n as [|n IH]; [reflexivity|]. cbn [libssl.bn2bin_bytes length]. by rewrite IH.
Qed.

(** Byte [i] of a magnitude, as the C loop extracts it. *)
Lemma bn2bin_digit (m : Z) (i : nat) :
  byte_to_Z (byte_of_Z (Z.land (m ≫ (8 * Z.of_nat i)) 255))
  = (m `div` 256 ^ Z.of_nat i) `mod` 256.
Proof.
  rewrite byte_to_of_Z.
  change 255 with (Z.ones 8). rewrite Z.land_ones by lia.
  change (2 ^ 8) with 256. rewrite Z.mod_mod by lia.
  rewrite Z.shiftr_div_pow2 by lia.
  rewrite Z.pow_mul_r by lia. reflexivity.
Qed.

(** Reading back what [BN_bn2bin] wrote gives the low [n] bytes. *)
Lemma bin2bn_bn2bin (n : nat) (m : Z) :
  libssl.bin2bn_value (libssl.bn2bin_bytes n m) = m `mod` 256 ^ Z.of_nat n.
Proof.
  induction n as [|n IH].
  - simpl. rewrite Z.mod_1_r. reflexivity.
  - cbn [libssl.bn2bin_bytes]. rewrite bin2bn_value_cons, length_bn2bin_bytes, IH.
    rewrite bn2bin_digit.
    rewrite Nat2Z.inj_succ, Z.pow_succ_r by lia.
    rewrite (Z.mul_comm 256), Z.rem_mul_r by (try apply Z.pow_nonzero; lia).
    lia.
Qed.

Lemma bn2bin_bytes_drop (k s : nat) (m : Z) :
  drop k (libssl.bn2bin_bytes (k + s) m) = libssl.bn2bin_bytes s m.
Proof.
  induction k as [|k IH]; [reflexivity|]. exact IH.
Qed.

(** The encoding law of the two native conversions: a magnitude that fits in
    [n] bytes survives, whatever the number of zero bytes in front. *)
Lemma bin2bn_padded (k n : nat) (m : Z) :
  0 ≤ m < 256 ^ Z.of_nat n →
  libssl.bin2bn_value (replicate k x00 ++ libssl.bn2bin_bytes n m) = m.
Proof.
  intros Hm. rewrite bin2bn_value_app, bin2bn_value_zeros, bin2bn_bn2bin.
  rewrite Z.mod_small by lia. lia.
Qed.

(** ** Native writes into a buffer *)

Lemma length_poke (to : Z) (b : byte) (m : list byte * list (Z * byte)) :
  length (libssl.poke to b m).1 = length m.1.
Proof.
  unfold libssl.poke. case_match; simpl; [apply length_insert|reflexivity].
Qed.

Lemma length_poke_bytes (bs : list byte) (to : Z) (m : list byte * list (Z * byte)) :
  length (libssl.poke_bytes to bs m).1 = length m.1.
Proof.
  revert to m. induction bs as [|b bs IH]; intros to m; [reflexivity|].
  cbn [libssl.poke_bytes]. rewrite IH. apply length_poke.
Qed.

(** Writes that stay inside the buffer replace a segment of it and leave the
    neighbouring memory alone. *)
Lemma poke_bytes_inside (bs buf : list byte) (i : nat) (st : list (Z * byte)) :
  (i + length bs ≤ length buf)%nat →
  libssl.poke_bytes (Z.of_nat i) bs (buf, st)
  = (take i buf ++ bs ++ drop (i + length bs) buf, st).
Proof.
  revert buf i. induction bs as [|b bs IH]; intros buf i Hlen.
  - simpl. rewrite Nat.add_0_r, take_drop. reflexivity.
  - cbn [libssl.poke_bytes length] in *.
    unfold libssl.poke. cbn [fst snd].
    replace ((0 <=? Z.of_nat i) && (Z.of_nat i <? Z.of_nat (length buf))) with true
      by (symmetry; apply andb_true_intro; split; [apply Z.leb_le|apply Z.ltb_lt]; lia).
    rewrite Nat2Z.id.
    replace (Z.of_nat i + 1) with (Z.of_nat (S i)) by lia.
    rewrite IH by (rewrite length_insert; lia).
    f_equal.
    assert (Hi : (i < length buf)%nat) by lia.
    rewrite (take_S_r _ _ b) by (apply list_lookup_insert_eq; lia).
    rewrite take_insert_ge by lia.
    rewrite drop_insert_lt by lia.
    rewrite <- app_assoc. simpl.
    replace (i + S (length bs))%nat with (S (i + length bs)) by lia.
    reflexivity.
Qed.

(** Writes in front of the buffer go to the neighbouring memory. *)
Lemma poke_bytes_before (pre bs buf : list byte) (st : list (Z * byte)) :
  libssl.poke_bytes (- Z.of_nat (length pre)) (pre ++ bs) (buf, st)
  = libssl.poke_bytes 0 bs
      (buf, st ++ zip (seqZ (- Z.of_nat (length pre)) (Z.of_nat (length pre))) pre).
Proof.
  revert st. induction pre as [|b pre IH]; intros st.
  - simpl. rewrite app_nil_r. reflexivity.
  - change (length (b :: pre)) with (S (length pre)).
    rewrite Nat2Z.inj_succ. set (n := Z.of_nat (length pre)).
    assert (Hn : 0 ≤ n) by (subst n; lia).
    change ((b :: pre) ++ bs) with (b :: (pre ++ bs)).
    cbn [libssl.poke_bytes].
    unfold libssl.poke. cbn [fst snd].
    replace (0 <=? - Z.succ n) with false by (symmetry; apply Z.leb_gt; lia).
    cbn [andb].
    replace (- Z.succ n + 1) with (- n) by lia.
    unfold n at 1. rewrite IH. fold n. f_equal. f_equal.
    rewrite <- app_assoc. f_equal.
    rewrite (seqZ_cons _ (Z.succ n)) by lia.
    cbn [zip zip_with app].
    replace (Z.succ (- Z.succ n)) with (- n) by lia.
    replace (Z.pred (Z.succ n)) with n by lia. reflexivity.
Qed.

(** ** Running the monad *)

Lemma bind_returned {A B : Type} (m : py A) (f : A → py B) (w w1 : world) (a : A) :
  m w = (Returned a, w1) → (m ≫= f) w = f a w1.
Proof. intros H. unfold mbind, py_bind. rewrite H. reflexivity. Qed.


Lemma bind_crashed {A B : Type} (m : py A) (f : A → py B) (w w1 : world) :
  m w = (Crashed, w1) → (m ≫= f) w = (Crashed, w1).
Proof. intros H. unfold mbind, py_bind. rewrite H. reflexivity. Qed.

Lemma bind_raised {A B : Type} (m : py A) (f : A → py B) (w w1 : world) (e : exn) :
  m w = (Raised e, w1) → (m ≫= f) w = (Raised e, w1).
Proof. intros H. unfold mbind, py_bind. rewrite H. reflexivity. Qed.

Lemma set_stray_writes_nil (w : world) :
  set_stray_writes (stray_writes w ++ []) w = w.
Proof. destruct w. unfold set_stray_writes. simpl. rewrite app_nil_r. reflexivity. Qed.

Lemma run_deref (w : world) (a : positive) (x : Z) :
  bn_heap w !! a = Some x → libssl.deref (Z.pos a) w = (Returned x, w).
Proof. intros H. unfold libssl.deref. rewrite H. reflexivity. Qed.

Lemma run_create_string_buffer (size : Z) (w : world) :
  0 ≤ size →
  create_string_buffer size w = (Returned (replicate (Z.to_nat size) x00), w).
Proof.
  intros H. unfold create_string_buffer.
  destruct (Z.ltb_spec size 0); [lia|reflexivity].
Qed.

Lemma run_BN_num_bytes (w : world) (a : positive) (x : Z) :
  bn_heap w !! a = Some x →
  BN_num_bytes (PyVoidP (Z.pos a)) w = (Returned (libssl.num_bytes x), w).
Proof.
  intros H. unfold BN_num_bytes, _ssl_BN_num_bits, libssl.BN_num_bits.
  cbn [from_param_c_void_p].
  unfold mbind, py_bind, mret, py_ret. rewrite (run_deref _ _ _ H). reflexivity.
Qed.

Lemma run_BN_bn2bin (w : world) (a : positive) (x : Z) (data : list byte) (offset : Z) :
  bn_heap w !! a = Some x →
  _ssl_BN_bn2bin (PyVoidP (Z.pos a)) data offset w
  = let m := libssl.poke_bytes offset
               (libssl.bn2bin_bytes (Z.to_nat (libssl.num_bytes x)) (Z.abs x)) (data, []) in
    (match m.2 with
     | [] => Returned (libssl.num_bytes x, m.1)
     | _ :: _ => Crashed
     end,
     set_stray_writes (stray_writes w ++ m.2) w).
Proof.
  intros H. unfold _ssl_BN_bn2bin, libssl.BN_bn2bin.
  cbn [from_param_c_void_p].
  unfold mbind, py_bind, mret, py_ret, modify_world, crash. rewrite (run_deref _ _ _ H).
  cbv zeta. destruct (libssl.poke_bytes _ _ _).2; reflexivity.
Qed.

(** The zero-filling loop of [BNToBin] changes nothing where the buffer
    already holds zeros. *)
Lemma zero_fill_noop (idx : list Z) (l : list byte) (w : world) :
  Forall (λ i, 0 ≤ i ∧ l !! Z.to_nat i = Some x00) idx →
  for_each idx (λ i, setitem i 0) l w = (Returned l, w).
Proof.
  induction 1 as [|i idx [Hi Hl] _ IH]; [reflexivity|].
  cbn [for_each]. erewrite bind_returned; [exact IH|].
  unfold setitem.
  pose proof (lookup_lt_Some _ _ _ Hl) as Hlt.
  destruct (Z.ltb_spec i 0); [lia|].
  replace ((0 <=? i) && (i <? Z.of_nat (length l))) with true
    by (symmetry; apply andb_true_intro; split; [apply Z.leb_le|apply Z.ltb_lt]; lia).
  cbn [Z.leb Z.ltb Z.compare andb].
  change (byte_of_Z 0) with x00.
  rewrite list_insert_id by exact Hl. reflexivity.
Qed.

(** The zero-filling loop runs to its end when its indices lie inside the
    buffer, and keeps the length of the buffer. *)
Lemma zero_fill_runs (idx : list Z) (l : list byte) (w : world) :
  Forall (λ i, 0 ≤ i < Z.of_nat (length l)) idx →
  ∃ l', for_each idx (λ i, setitem i 0) l w = (Returned l', w) ∧ length l' = length l.
Proof.
  revert l. induction idx as [|i idx IH]; intros l Hall.
  - exists l. split; reflexivity.
  - inversion Hall as [|? ? Hi Hrest]; subst.
    assert (Hset : setitem i 0 l w = (Returned (<[Z.to_nat i := x00]> l), w)).
    { unfold setitem. destruct (Z.ltb_spec i 0); [lia|].
      replace ((0 <=? i) && (i <? Z.of_nat (length l))) with true
        by (symmetry; apply andb_true_intro; split; [apply Z.leb_le|apply Z.ltb_lt]; lia).
      reflexivity. }
    destruct (IH (<[Z.to_nat i := x00]> l)) as (l' & Hrun & Hlen).
    { rewrite length_insert. exact Hrest. }
    exists l'. split.
    + cbn [for_each]. erewrite bind_returned by exact Hset. exact Hrun.
    + rewrite Hlen. apply length_insert.
Qed.

(** ** [BNToBin], case by case *)

Lemma BNToBin_unfold (bn : pyval) (size : Z) :
  bn ≠ PyNone →
  BNToBin bn size
  = (data ← create_string_buffer size;
     nbytes ← BN_num_bytes bn;
     let offset := size - nbytes in
     r ← _ssl_BN_bn2bin bn data offset;
     if r.1 =? 0 then mret PyNone
     else
       data ← for_each (range offset) (λ i, setitem i 0) r.2;
       mret (PyBytes (take (Z.to_nat size) data))).
Proof. intros H. destruct bn; [done|reflexivity..]. Qed.

Lemma pyval_None_dec (v : pyval) : v = PyNone ∨ v ≠ PyNone.
Proof. destruct v; [by left|by right..]. Qed.

Lemma BNToBin_negative_size_raises (bn : pyval) (size : Z) (w : world) :
  bn ≠ PyNone → size < 0 → BNToBin bn size w = (Raised ValueError, w).
Proof.
  intros Hbn Hsize. rewrite (BNToBin_unfold bn size Hbn).
  apply bind_raised. unfold create_string_buffer.
  destruct (Z.ltb_spec size 0); [reflexivity|lia].
Qed.

(** Where [BN_bn2bin] writes when the magnitude fits the buffer: behind the
    zero bytes in front, and nowhere else. *)
Lemma poke_bytes_fits (x size : Z) :
  libssl.num_bytes x ≤ size →
  libssl.poke_bytes (size - libssl.num_bytes x)
    (libssl.bn2bin_bytes (Z.to_nat (libssl.num_bytes x)) (Z.abs x))
    (replicate (Z.to_nat size) x00, [])
  = (replicate (Z.to_nat (size - libssl.num_bytes x)) x00
     ++ libssl.bn2bin_bytes (Z.to_nat (libssl.num_bytes x)) (Z.abs x), []).
Proof.
  intros Hfit. pose proof (num_bytes_nonneg x) as Hn0.
  set (n := libssl.num_bytes x) in *.
  set (bs := libssl.bn2bin_bytes (Z.to_nat n) (Z.abs x)).
  assert (Hbs : length bs = Z.to_nat n) by apply length_bn2bin_bytes.
  replace (size - n) with (Z.of_nat (Z.to_nat (size - n))) at 1 by lia.
  rewrite poke_bytes_inside by (rewrite length_replicate, Hbs; lia).
  rewrite take_replicate, drop_replicate, Hbs.
  replace (Z.to_nat size - (Z.to_nat (size - n) + Z.to_nat n))%nat with 0%nat by lia.
  replace (Z.to_nat (size - n) `min` Z.to_nat size)%nat with (Z.to_nat (size - n)) by lia.
  cbn [replicate]. rewrite app_nil_r. reflexivity.
Qed.

(** Where it writes when the magnitude does not fit: the bytes in excess go
    in front of the buffer, at negative offsets. *)
Lemma poke_bytes_oversize (x size : Z) :
  0 ≤ size → size < libssl.num_bytes x →
  libssl.poke_bytes (size - libssl.num_bytes x)
    (libssl.bn2bin_bytes (Z.to_nat (libssl.num_bytes x)) (Z.abs x))
    (replicate (Z.to_nat size) x00, [])
  = (libssl.bn2bin_bytes (Z.to_nat size) (Z.abs x),
     zip (seqZ (size - libssl.num_bytes x) (libssl.num_bytes x - size))
         (take (Z.to_nat (libssl.num_bytes x - size))
            (libssl.bn2bin_bytes (Z.to_nat (libssl.num_bytes x)) (Z.abs x)))).
Proof.
  intros Hsize Hn.
  set (n := libssl.num_bytes x) in *.
  set (k := Z.to_nat (n - size)).
  set (bs := libssl.bn2bin_bytes (Z.to_nat n) (Z.abs x)).
  assert (Hbs : length bs = Z.to_nat n) by apply length_bn2bin_bytes.
  assert (Hsplit : bs = take k bs ++ libssl.bn2bin_bytes (Z.to_nat size) (Z.abs x)).
  { rewrite <- (take_drop k bs) at 1. f_equal. unfold bs.
    replace (Z.to_nat n) with (k + Z.to_nat size)%nat by (unfold k; lia).
    apply bn2bin_bytes_drop. }
  assert (Hk : length (take k bs) = k) by (rewrite length_take, Hbs; unfold k; lia).
  set (pre := take k bs) in *. clearbody pre.
  replace (size - n) with (- Z.of_nat (length pre)) by (rewrite Hk; unfold k; lia).
  rewrite Hsplit.
  rewrite poke_bytes_before.
  change 0 with (Z.of_nat 0).
  rewrite poke_bytes_inside by (rewrite length_replicate, length_bn2bin_bytes; lia).
  cbn [fst snd take app Nat.add].
  rewrite drop_ge by (rewrite length_replicate, length_bn2bin_bytes; lia).
  rewrite app_nil_r. rewrite Hk. do 3 f_equal. unfold k. lia.
Qed.

(** [BNToBin] on a handle that leads to the BIGNUM [x]: the three ways the
    call goes. The two hypotheses say what the two native calls do with the
    handle. *)
Lemma BNToBin_on_value (bn : pyval) (size x : Z) (w : world) :
  bn ≠ PyNone → 0 ≤ size →
  BN_num_bytes bn w = (Returned (libssl.num_bytes x), w) →
  (∀ data offset,
     _ssl_BN_bn2bin bn data offset w
     = let m := libssl.poke_bytes offset
                  (libssl.bn2bin_bytes (Z.to_nat (libssl.num_bytes x)) (Z.abs x))
                  (data, []) in
       (match m.2 with
        | [] => Returned (libssl.num_bytes x, m.1)
        | _ :: _ => Crashed
        end,
        set_stray_writes (stray_writes w ++ m.2) w)) →
  (x = 0 → BNToBin bn size w = (Returned PyNone, w)) ∧
  (x ≠ 0 → libssl.bit_length x ≤ 8 * size →
   BNToBin bn size w
   = (Returned (PyBytes (replicate (Z.to_nat (size - libssl.num_bytes x)) x00
                         ++ libssl.bn2bin_bytes (Z.to_nat (libssl.num_bytes x)) (Z.abs x))),
      w)) ∧
  (8 * size < libssl.bit_length x →
   BNToBin bn size w
   = (Crashed,
      set_stray_writes
        (stray_writes w ++
         zip (seqZ (size - libssl.num_bytes x) (libssl.num_bytes x - size))
             (take (Z.to_nat (libssl.num_bytes x - size))
                (libssl.bn2bin_bytes (Z.to_nat (libssl.num_bytes x)) (Z.abs x))))
        w)).
Proof.
  intros Hbn Hsize Hnum Hcall.
  pose proof (num_bytes_nonneg x) as Hn0.
  pose proof (num_bytes_le_iff x size) as Hiff.
  rewrite (BNToBin_unfold bn size Hbn).
  erewrite bind_returned by (apply run_create_string_buffer; exact Hsize).
  erewrite bind_returned by exact Hnum. cbv zeta.
  specialize (Hcall (replicate (Z.to_nat size) x00) (size - libssl.num_bytes x)).
  cbv zeta in Hcall.
  split; [|split].
  - intros ->. change (libssl.num_bytes 0) with 0 in *.
    cbn [Z.to_nat libssl.bn2bin_bytes libssl.poke_bytes fst snd] in Hcall.
    rewrite set_stray_writes_nil in Hcall.
    erewrite bind_returned by exact Hcall. reflexivity.
  - intros Hx Hfit.
    assert (Hn : libssl.num_bytes x ≠ 0) by (rewrite num_bytes_zero_iff; exact Hx).
    rewrite poke_bytes_fits in Hcall by lia. cbn [fst snd] in Hcall.
    rewrite set_stray_writes_nil in Hcall.
    erewrite bind_returned by exact Hcall. cbn [fst snd].
    destruct (Z.eqb_spec (libssl.num_bytes x) 0) as [|_]; [done|].
    set (n := libssl.num_bytes x) in *.
    set (bs := libssl.bn2bin_bytes (Z.to_nat n) (Z.abs x)).
    erewrite bind_returned.
    2:{ apply zero_fill_noop. unfold range. apply Forall_seqZ. intros i Hi.
        split; [lia|]. rewrite lookup_app_l by (rewrite length_replicate; lia).
        apply lookup_replicate_2. lia. }
    unfold mret, py_ret. do 3 f_equal.
    apply take_ge. unfold bs. rewrite length_app, length_replicate, length_bn2bin_bytes. lia.
  - intros Hbig. assert (Hn : size < libssl.num_bytes x) by lia.
    rewrite poke_bytes_oversize in Hcall by lia. cbn [fst snd] in Hcall.
    set (n := libssl.num_bytes x) in *.
    set (st := zip _ _) in *.
    assert (Hst : length st = Z.to_nat (n - size)).
    { unfold st. rewrite length_zip, length_seqZ, length_take, length_bn2bin_bytes. lia. }
    destruct st as [|e st]; [simpl in Hst; lia|].
    apply bind_crashed. exact Hcall.
Qed.

(** A zero BIGNUM: the primitive writes nothing and returns 0, which
    [BNToBin] takes for a failure. *)
Lemma BNToBin_zero (w : world) (a : positive) (size : Z) :
  bn_heap w !! a = Some 0 → 0 ≤ size →
  BNToBin (PyVoidP (Z.pos a)) size w = (Returned PyNone, w).
Proof.
  intros Ha Hsize.
  apply (BNToBin_on_value (PyVoidP (Z.pos a)) size 0 w);
    [discriminate|exact Hsize|apply run_BN_num_bytes; exact Ha
    |intros; apply run_BN_bn2bin; exact Ha|reflexivity].
Qed.

(** A BIGNUM that fits: zero bytes in front, then the magnitude; nothing
    is written outside the buffer. *)
Lemma BNToBin_fits (w : world) (a : positive) (x size : Z) :
  bn_heap w !! a = Some x → x ≠ 0 → libssl.bit_length x ≤ 8 * size →
  BNToBin (PyVoidP (Z.pos a)) size w
  = (Returned (PyBytes (replicate (Z.to_nat (size - libssl.num_bytes x)) x00
                        ++ libssl.bn2bin_bytes (Z.to_nat (libssl.num_bytes x)) (Z.abs x))),
     w).
Proof.
  intros Ha Hx Hfit.
  assert (Hsize : 0 ≤ size).
  { pose proof (bit_length_nonneg x). pose proof (bit_length_zero_iff x). lia. }
  apply (BNToBin_on_value (PyVoidP (Z.pos a)) size x w);
    [discriminate|exact Hsize|apply run_BN_num_bytes; exact Ha
    |intros; apply run_BN_bn2bin; exact Ha|exact Hx|exact Hfit].
Qed.


(** ** The result check *)

(** What the check does with a value that [ctypes] produced from a pointer:
    NULL arrives as [None], and [None == 0] is false, so the check never
    takes its error branch and wraps NULL in a [c_void_p] instance. *)
Lemma check_res_of_pointer (p : pointer) (func_name : string) (args : list pyval)
  (w : world) :
  _check_res_void_p (restype_c_void_p p) func_name args w
  = (Returned (PyVoidP (p `mod` 2 ^ pointer_bits)), w).
Proof.
  unfold _check_res_void_p, restype_c_void_p, NULL.
  destruct (Z.eqb_spec p 0) as [->|Hp]; [reflexivity|].
  cbn [py_eq_int]. destruct (Z.eqb_spec p 0); [done|reflexivity].
Qed.

(** The error branch itself, entered with the integer 0: the exception is
    built only when the call had no argument; with arguments, [join]
    rejects the first one that is no text string. *)
Lemma check_res_zero_no_args (func_name : string) (w : world) :
  ∃ errno text w', _check_res_void_p (PyInt 0) func_name [] w
    = (Raised (LibreSSLException errno
                 (String.append (String.append func_name "(): ") (str_of_bytes text))), w').
Proof.
  unfold _check_res_void_p, _ssl_ERR_get_error, _ssl_ERR_error_string_n,
    libssl.ERR_get_error, libssl.ERR_error_string_n, str_join.
  cbn [py_eq_int Z.eqb str_items].
  unfold mbind, py_bind, mret, py_ret, get_world, raise.
  destruct (err_queue w); do 3 eexists; reflexivity.
Qed.

Lemma check_res_zero_args (func_name : string) (arg : pyval) (args : list pyval)
  (w : world) :
  (∀ s, arg ≠ PyStr s) →
  (_check_res_void_p (PyInt 0) func_name (arg :: args) w).1 = Raised TypeError.
Proof.
  intros Harg.
  unfold _check_res_void_p, _ssl_ERR_get_error, _ssl_ERR_error_string_n,
    libssl.ERR_get_error, libssl.ERR_error_string_n, str_join.
  cbn [py_eq_int Z.eqb].
  assert (Hitems : str_items (arg :: args) = None).
  { destruct arg; try reflexivity. by destruct (Harg s). }
  rewrite Hitems.
  unfold mbind, py_bind, mret, py_ret, get_world, raise.
  destruct (err_queue w); reflexivity.
Qed.

(** On the integer 0 the check always raises, one exception or the other. *)
Lemma check_res_zero_raises (func_name : string) (args : list pyval) (w : world) :
  ∃ e, (_check_res_void_p (PyInt 0) func_name args w).1 = Raised e.
Proof.
  unfold _check_res_void_p, _ssl_ERR_get_error, _ssl_ERR_error_string_n,
    libssl.ERR_get_error, libssl.ERR_error_string_n, str_join.
  cbn [py_eq_int Z.eqb].
  unfold mbind, py_bind, mret, py_ret, get_world, raise.
  destruct (err_queue w); destruct (str_items args); eauto.
Qed.

(** ** Computations that raise no exception *)

Create HintDb quiet discriminated.

Lemma never_raises_ret {A : Type} (a : A) : never_raises (mret a).
Proof. intros w e. discriminate. Qed.

Lemma never_raises_crash {A : Type} : never_raises (@crash A).
Proof. intros w e. discriminate. Qed.

Lemma never_raises_bind {A B : Type} (m : py A) (f : A → py B) :
  never_raises m → (∀ a, never_raises (f a)) → never_raises (m ≫= f).
Proof.
  intros Hm Hf w e. unfold mbind, py_bind.
  specialize (Hm w). destruct (m w) as [[a|e'|] w1]; cbn [fst] in *.
  - apply Hf.
  - by destruct (Hm e').
  - discriminate.
Qed.

Lemma never_raises_modify (f : world → world) : never_raises (modify_world f).
Proof. intros w e. discriminate. Qed.

Lemma never_raises_get_world : never_raises get_world.
Proof. intros w e. discriminate. Qed.

Lemma never_raises_malloc : never_raises libssl.malloc.
Proof. intros w e. unfold libssl.malloc. destruct (malloc_plan w); discriminate. Qed.

Lemma never_raises_deref (p : pointer) : never_raises (libssl.deref p).
Proof.
  intros w e. unfold libssl.deref.
  destruct p; try discriminate. destruct (bn_heap w !! _); discriminate.
Qed.

Lemma never_raises_if {A : Type} (b : bool) (m1 m2 : py A) :
  never_raises m1 → never_raises m2 → never_raises (if b then m1 else m2).
Proof. by destruct b. Qed.

#[local] Hint Resolve never_raises_ret never_raises_crash never_raises_modify
  never_raises_get_world never_raises_malloc never_raises_deref : quiet.

Ltac quiet :=
  repeat first
    [ solve [auto with quiet]
    | apply never_raises_bind; [|intros ?]
    | apply never_raises_if
    | match goal with
      | |- never_raises (match ?x with _ => _ end) => destruct x
      end
    | progress unfold libssl.store, libssl.BNerror ].

Lemma never_raises_BN_new : never_raises libssl.BN_new.
Proof. unfold libssl.BN_new. quiet. Qed.

Lemma never_raises_BN_free (p : pointer) : never_raises (libssl.BN_free p).
Proof. unfold libssl.BN_free. quiet. Qed.

#[local] Hint Resolve never_raises_BN_new never_raises_BN_free : quiet.

Lemma never_raises_BN_bin2bn (s : option (list byte)) (n : Z) (ret : pointer) :
  never_raises (libssl.BN_bin2bn s n ret).
Proof. unfold libssl.BN_bin2bn. quiet. Qed.

Lemma never_raises_BN_mod_inverse (ret a n ctx : pointer) :
  never_raises (libssl.BN_mod_inverse ret a n ctx).
Proof. unfold libssl.BN_mod_inverse. quiet. Qed.

Lemma never_raises_from_param_c_void_p (v : pyval) :
  never_raises (from_param_c_void_p v).
Proof. destruct v; cbn; auto with quiet. Qed.

(** A pointer-returning foreign function raises nothing, whatever the
    native function reports. *)
Lemma never_raises_checked_void_p (func_name : string) (args : list pyval)
  (native : py pointer) :
  never_raises native → never_raises (checked_void_p func_name args native).
Proof.
  intros Hn. unfold checked_void_p. apply never_raises_bind; [exact Hn|].
  intros p w e. rewrite check_res_of_pointer. discriminate.
Qed.

Lemma never_raises_ssl_BN_mod_inverse (ret a n ctx : pyval) :
  never_raises (_ssl_BN_mod_inverse ret a n ctx).
Proof.
  unfold _ssl_BN_mod_inverse.
  repeat (apply never_raises_bind; [apply never_raises_from_param_c_void_p|intros ?]).
  apply never_raises_checked_void_p, never_raises_BN_mod_inverse.
Qed.

(** ** [BinToBN] *)

Lemma next_address_fresh (w : world) : bn_heap w !! next_address w = None.
Proof. unfold next_address. apply not_elem_of_dom. apply is_fresh. Qed.

Lemma run_malloc_granted (w : world) :
  Forall (λ g, g = true) (malloc_plan w) →
  ∃ w', libssl.malloc w = (Returned true, w') ∧
        bn_heap w' = bn_heap w ∧ err_queue w' = err_queue w ∧
        stray_writes w' = stray_writes w ∧
        Forall (λ g, g = true) (malloc_plan w').
Proof.
  intros Hall. unfold libssl.malloc.
  destruct (malloc_plan w) as [|g pl] eqn:Hpl.
  - exists w. rewrite Hpl. auto.
  - inversion Hall; subst. eexists. split; [reflexivity|]. cbn. auto.
Qed.

Lemma run_BN_new_granted (w : world) :
  memory_granted w →
  ∃ w', libssl.BN_new w = (Returned (Z.pos (next_address w)), w') ∧
        bn_heap w' = <[next_address w := 0]> (bn_heap w) ∧
        err_queue w' = err_queue w ∧ stray_writes w' = stray_writes w ∧
        Forall (λ g, g = true) (malloc_plan w').
Proof.
  intros [Hall Haddr].
  destruct (run_malloc_granted w Hall) as (w1 & Hm & Hh & Hq & Hs & Hall1).
  unfold libssl.BN_new. erewrite bind_returned by exact Hm.
  unfold get_world, mbind, py_bind, libssl.store, modify_world, mret, py_ret.
  rewrite Hh. fold (next_address w).
  destruct (Z.ltb_spec (Z.pos (next_address w)) (2 ^ pointer_bits)); [|lia].
  cbn [andb]. eexists. split; [reflexivity|]. cbn. rewrite Hh. auto.
Qed.

Lemma run_ssl_BN_new_granted (w : world) :
  memory_granted w →
  ∃ w', _ssl_BN_new w = (Returned (PyVoidP (Z.pos (next_address w))), w') ∧
        bn_heap w' = <[next_address w := 0]> (bn_heap w) ∧
        err_queue w' = err_queue w ∧ stray_writes w' = stray_writes w ∧
        Forall (λ g, g = true) (malloc_plan w').
Proof.
  intros Hg. destruct (run_BN_new_granted w Hg) as (w1 & Hn & Hrest).
  exists w1. split; [|exact Hrest].
  unfold _ssl_BN_new, checked_void_p. erewrite bind_returned by exact Hn.
  rewrite check_res_of_pointer.
  destruct Hg as [_ Haddr]. rewrite Z.mod_small by lia. reflexivity.
Qed.

Lemma run_BN_bin2bn_granted (s : list byte) (a : positive) (x0 : Z) (w : world) :
  bn_heap w !! a = Some x0 → Forall (λ g, g = true) (malloc_plan w) →
  ∃ w', libssl.BN_bin2bn (Some s) (Z.of_nat (length s)) (Z.pos a) w
        = (Returned (Z.pos a), w') ∧
        bn_heap w' = <[a := libssl.bin2bn_value s]> (bn_heap w) ∧
        err_queue w' = err_queue w ∧ stray_writes w' = stray_writes w.
Proof.
  intros Hlive Hall. unfold libssl.BN_bin2bn.
  destruct (Z.ltb_spec (Z.of_nat (length s)) 0); [lia|].
  cbn [Z.eqb NULL].
  cbv beta iota delta [mbind py_bind mret py_ret libssl.store modify_world].
  rewrite (run_deref _ _ _ Hlive). cbn [Z.to_pos].
  destruct (Z.eqb_spec (Z.of_nat (length s)) 0) as [Hs0|Hs0].
  - assert (s = []) as -> by (destruct s; [done|simpl in Hs0; lia]).
    eexists. split; [reflexivity|]. cbn. auto.
  - destruct (run_malloc_granted w Hall) as (w2 & Hm & Hh2 & Hq2 & Hs2 & _).
    rewrite Hm. eexists. split; [reflexivity|]. cbn.
    rewrite Hh2, Nat2Z.id, firstn_all. auto.
Qed.

(** With memory at hand, [BinToBN] returns a handle on a new BIGNUM that
    holds the number the byte string spells, big-endian; every other BIGNUM
    is left as it was. *)
Lemma BinToBN_success (s : list byte) (w : world) :
  memory_granted w → Z.of_nat (length s) < 2 ^ 31 →
  ∃ w', BinToBN (PyBytes s) w = (Returned (PyVoidP (Z.pos (next_address w))), w') ∧
        bn_heap w !! next_address w = None ∧
        bn_heap w' = <[next_address w := libssl.bin2bn_value s]> (bn_heap w) ∧
        err_queue w' = err_queue w ∧ stray_writes w' = stray_writes w.
Proof.
  intros Hg Hlen.
  destruct (run_ssl_BN_new_granted w Hg) as (w1 & Hnew & Hh1 & Hq1 & Hs1 & Hall1).
  destruct Hg as [_ Haddr].
  set (a := next_address w) in *.
  assert (Hlive : bn_heap w1 !! a = Some 0) by (rewrite Hh1; apply lookup_insert_eq).
  destruct (run_BN_bin2bn_granted s a 0 w1 Hlive Hall1) as (w2 & Hb & Hh2 & Hq2 & Hs2).
  exists w2. split.
  - unfold BinToBN. erewrite bind_returned by exact Hnew.
    cbv beta iota delta [mbind py_bind mret py_ret len _ssl_BN_bin2bn checked_void_p
      from_param_c_char_p from_param_c_int from_param_c_void_p].
    rewrite c_int_small by lia. rewrite Hb. cbv beta iota.
    rewrite check_res_of_pointer. reflexivity.
  - split; [apply next_address_fresh|].
    rewrite Hh2, Hh1, insert_insert_eq. split; [reflexivity|]. split; congruence.
Qed.

(** Unfolds the plumbing of the monad, and nothing of the data. *)
Ltac run_py :=
  cbv beta iota delta [mbind py_bind mret py_ret modify_world get_world
    libssl.store libssl.BNerror libssl.BN_free Z.eqb NULL].

(** [BinToBN] is total on byte strings: the native functions are handed
    pointers they can follow, and nothing on the way raises. *)
Lemma malloc_total (w : world) :
  ∃ g w', libssl.malloc w = (Returned g, w') ∧ bn_heap w' = bn_heap w.
Proof.
  unfold libssl.malloc. destruct (malloc_plan w); eauto.
Qed.

Lemma BN_new_cases (w : world) :
  (∃ a w', libssl.BN_new w = (Returned (Z.pos a), w') ∧
           bn_heap w' !! a = Some 0 ∧ Z.pos a < 2 ^ pointer_bits) ∨
  (∃ w', libssl.BN_new w = (Returned NULL, w')).
Proof.
  destruct (malloc_total w) as (g & w1 & Hm & Hh).
  unfold libssl.BN_new. erewrite bind_returned by exact Hm.
  cbv beta iota delta [mbind py_bind mret py_ret get_world libssl.store
    libssl.BNerror modify_world].
  destruct g; cbn [andb]; [|right; eauto].
  destruct (Z.ltb_spec (Z.pos (fresh (dom (bn_heap w1)))) (2 ^ pointer_bits));
    [|right; eauto].
  left. do 2 eexists. split; [reflexivity|]. split; [|assumption].
  cbn. apply lookup_insert_eq.
Qed.

Lemma BN_bin2bn_total (s : list byte) (n : Z) (p : pointer) (w : world) :
  p = NULL ∨ (∃ a x, p = Z.pos a ∧ bn_heap w !! a = Some x) →
  ∃ r w', libssl.BN_bin2bn (Some s) n p w = (Returned r, w').
Proof.
  intros Hp. unfold libssl.BN_bin2bn.
  destruct (n <? 0); [eauto|].
  assert (Hrest : ∀ (bn : pointer) (a : positive) (x : Z) (w1 : world),
            bn = NULL ∨ bn = Z.pos a → bn_heap w1 !! a = Some x →
            ∃ r w', (_ ← libssl.deref (Z.pos a);
                     if n =? 0 then _ ← libssl.store (Z.to_pos (Z.pos a)) 0; mret (Z.pos a)
                     else
                       granted ← libssl.malloc;
                       if (granted : bool) then
                         _ ← libssl.store (Z.to_pos (Z.pos a))
                               (libssl.bin2bn_value (take (Z.to_nat n) s));
                         mret (Z.pos a)
                       else
                         _ ← libssl.BNerror libssl.ERR_R_MALLOC_FAILURE;
                         _ ← libssl.BN_free bn;
                         mret NULL) w1 = (Returned r, w')).
  { intros bn a x w1 Hbn Hlive.
    erewrite bind_returned by (apply run_deref; exact Hlive).
    destruct (n =? 0); [run_py; eauto|].
    destruct (malloc_total w1) as (g & w2 & Hm & Hh).
    erewrite bind_returned by exact Hm.
    destruct g; [run_py; eauto|].
    unfold libssl.BNerror.
    erewrite (bind_returned (modify_world _)) by reflexivity.
    destruct Hbn as [->| ->].
    - run_py; eauto.
    - unfold libssl.BN_free. cbn [Z.eqb NULL].
      erewrite (bind_returned (libssl.deref _ ≫= _)).
      2:{ erewrite bind_returned; [reflexivity|].
          apply run_deref. cbn. rewrite Hh. exact Hlive. }
      run_py; eauto. }
  destruct Hp as [->|(a & x & -> & Hlive)].
  - cbn [Z.eqb NULL].
    destruct (BN_new_cases w) as [(a & w1 & Hnew & Hlive & _)|(w1 & Hnew)];
      erewrite bind_returned by exact Hnew.
    + cbn [Z.eqb NULL]. eapply Hrest; [right; reflexivity|exact Hlive].
    + run_py; eauto.
  - cbn [Z.eqb NULL]. erewrite (bind_returned (mret _)) by reflexivity.
    cbn [Z.eqb NULL]. eapply Hrest; [left; reflexivity|exact Hlive].
Qed.

Lemma BinToBN_total (s : list byte) (w : world) :
  ∃ p w', BinToBN (PyBytes s) w = (Returned (PyVoidP p), w').
Proof.
  assert (Hnew : ∃ p w1, _ssl_BN_new w = (Returned (PyVoidP p), w1) ∧
            (p = NULL ∨ ∃ a x, p = Z.pos a ∧ bn_heap w1 !! a = Some x)).
  { unfold _ssl_BN_new, checked_void_p.
    destruct (BN_new_cases w) as [(a & w1 & Hnew & Hlive & Ha)|(w1 & Hnew)];
      erewrite bind_returned by exact Hnew; rewrite check_res_of_pointer.
    - rewrite Z.mod_small by lia. eauto 10.
    - eauto. }
  destruct Hnew as (p & w1 & Hnew & Hp).
  destruct (BN_bin2bn_total s (c_int (Z.of_nat (length s))) p w1 Hp) as (r & w2 & Hb).
  exists p, w2. unfold BinToBN. erewrite bind_returned by exact Hnew.
  cbv beta iota delta [mbind py_bind mret py_ret len _ssl_BN_bin2bn checked_void_p
    from_param_c_char_p from_param_c_int from_param_c_void_p].
  rewrite Hb. cbv beta iota. rewrite check_res_of_pointer. reflexivity.
Qed.




(** ** The helpers on small inputs *)

Example BinToBN_0100 :
  ∃ w', BinToBN (PyBytes [x01; x00]) (world_short_of_memory []) = (Returned (PyVoidP 1), w') ∧
        bn_heap w' !! 1%positive = Some 256.
Proof. eexists. split; [vm_compute; reflexivity|reflexivity]. Qed.

Example BNToBin_256_on_4 :
  BNToBin (PyVoidP 1) 4 (world_with 256)
  = (Returned (PyBytes [x00; x00; x01; x00]), world_with 256).
Proof. vm_compute. reflexivity. Qed.

Example BNToBin_negative_size :
  (BNToBin (PyVoidP 1) (-1) (world_with 256)).1 = Raised ValueError.
Proof. reflexivity. Qed.

Example BNToBin_dangling :
  (BNToBin (PyVoidP 7) 4 (world_with 256)).1 = Crashed.
Proof. vm_compute. reflexivity. Qed.

Example roundtrip_ff80_on_5 :
  ∃ w', (s ← BNToBin (PyVoidP 1) 5; BinToBN s) (world_with 65408)
        = (Returned (PyVoidP 2), w') ∧
        bn_heap w' !! 2%positive = Some 65408.
Proof. eexists. split; [vm_compute; reflexivity|reflexivity]. Qed.

Example mod_inverse_3_11 :
  libssl.mod_inverse 3 11 = Some 4 ∧ libssl.mod_inverse 2 4 = None.
Proof. split; reflexivity. Qed.

(** ** The byte count *)

Lemma ceil_div_spec (a b : Z) :
  0 < b → b * (ceil_div a b - 1) < a ≤ b * ceil_div a b.
Proof.
  intros Hb. unfold ceil_div.
  pose proof (Z.div_mod (- a) b ltac:(lia)).
  pose proof (Z.mod_pos_bound (- a) b Hb).
  nia.
Qed.

Lemma num_bytes_ceil (x : Z) : libssl.num_bytes x = ceil_div (libssl.bit_length x) 8.
Proof.
  pose proof (num_bytes_spec x).
  pose proof (ceil_div_spec (libssl.bit_length x) 8 ltac:(lia)).
  lia.
Qed.

(** C7. For every live BIGNUM, [BN_num_bytes] returns the ceiling of its bit
    length divided by 8, and leaves the state alone. *)
Theorem BN_num_bytes_is_ceil (w : world) (a : positive) (x : Z) :
  bn_heap w !! a = Some x →
  BN_num_bytes (PyVoidP (Z.pos a)) w
  = (Returned (ceil_div (libssl.bit_length x) 8), w).
Proof.
  intros Ha. rewrite (run_BN_num_bytes w a x Ha), num_bytes_ceil. reflexivity.
Qed.

(** The BIGNUM 256 (0x0100) takes 2 bytes. *)
Lemma BN_num_bytes_is_ceil_witness :
  bn_heap (world_with 256) !! 1%positive = Some 256 ∧
  BN_num_bytes (PyVoidP 1) (world_with 256) = (Returned 2, world_with 256).
Proof.
  split; [reflexivity|].
  exact (BN_num_bytes_is_ceil (world_with 256) 1 256 eq_refl).
Defined.

(** ** [BNToBin] returning [None] *)

(** C9. [BNToBin] returns [None] when it is handed [None], whatever the
    width, and when the primitive [BN_bn2bin] returns 0. *)
Theorem BNToBin_returns_None (bn : pyval) (size : Z) (w : world) :
  bn = PyNone ∨ bn2bin_reports_zero bn size w →
  (BNToBin bn size w).1 = Returned PyNone.
Proof.
  intros [->|(data & nbytes & r & w1 & w2 & w3 & Hbuf & Hnum & Hcall & Hr)];
    [reflexivity|].
  assert (Hrun : (data ← create_string_buffer size;
                  nbytes ← BN_num_bytes bn;
                  let offset := size - nbytes in
                  r ← _ssl_BN_bn2bin bn data offset;
                  if r.1 =? 0 then mret PyNone
                  else
                    data ← for_each (range offset) (λ i, setitem i 0) r.2;
                    mret (PyBytes (take (Z.to_nat size) data))) w
                 = (Returned PyNone, w3)).
  { erewrite bind_returned by exact Hbuf.
    erewrite bind_returned by exact Hnum.
    cbv zeta. erewrite bind_returned by exact Hcall.
    rewrite Hr. reflexivity. }
  unfold BNToBin. destruct bn; [reflexivity|..]; exact (f_equal fst Hrun).
Qed.

Lemma BNToBin_returns_None_witness :
  (PyVoidP 1 = PyNone ∨ bn2bin_reports_zero (PyVoidP 1) 4 (world_with 0)) ∧
  (BNToBin (PyVoidP 1) 4 (world_with 0)).1 = Returned PyNone.
Proof.
  assert (H : PyVoidP 1 = PyNone ∨ bn2bin_reports_zero (PyVoidP 1) 4 (world_with 0)).
  { right. unfold bn2bin_reports_zero.
    exists (replicate 4 x00), 0, (0, replicate 4 x00),
      (world_with 0), (world_with 0), (world_with 0).
    repeat split; vm_compute; reflexivity. }
  split; [exact H|].
  exact (BNToBin_returns_None (PyVoidP 1) 4 (world_with 0) H).
Defined.

(** ** [BNToBin] and the width *)

(** C1, at the failing input. The BIGNUM 256 has 9 bits and does not fit 1
    byte. [BNToBin] has no test of the width: it computes the offset
    [1 - 2 = -1], hands [BN_bn2bin] the address one byte in front of the
    buffer, and the primitive writes the high byte 01 there. No exception
    was raised on the way, and what follows the write is undefined. *)
Theorem BNToBin_oversize_out_of_bounds :
  8 * 1 < libssl.bit_length 256 ∧
  BN_num_bytes (PyVoidP 1) (world_with 256) = (Returned 2, world_with 256) ∧
  BNToBin (PyVoidP 1) 1 (world_with 256)
  = (Crashed, set_stray_writes [(-1, x01)] (world_with 256)).
Proof. split; [|split]; vm_compute; reflexivity. Qed.

(** C3, at the failing input: the BIGNUM zero has 0 bits and fits any width,
    yet [BNToBin] returns [None] and no byte string. *)
Theorem BNToBin_zero_is_None (size : nat) :
  libssl.bit_length 0 ≤ 8 * Z.of_nat size ∧
  BNToBin (PyVoidP 1) (Z.of_nat size) (world_with 0) = (Returned PyNone, world_with 0).
Proof.
  split; [change (libssl.bit_length 0) with 0; lia|].
  apply BNToBin_zero; [reflexivity|lia].
Qed.

(** For every other BIGNUM that fits, the layout is the one C3 describes:
    [size] bytes, the magnitude right-aligned, most significant byte first,
    zeros in front. *)
Lemma BNToBin_layout (w : world) (a : positive) (x size : Z) :
  bn_heap w !! a = Some x → x ≠ 0 → libssl.bit_length x ≤ 8 * size →
  ∃ s, BNToBin (PyVoidP (Z.pos a)) size w = (Returned (PyBytes s), w) ∧
       Z.of_nat (length s) = size ∧
       (∀ i : nat, Z.of_nat i < size - libssl.num_bytes x → s !! i = Some x00) ∧
       (∀ j : nat, Z.of_nat j < libssl.num_bytes x →
          s !! (Z.to_nat (size - 1) - j)%nat
          = Some (byte_of_Z (Z.abs x `div` 256 ^ Z.of_nat j))).
Proof.
  intros Ha Hx Hfit.
  rewrite (BNToBin_fits w a x size Ha Hx Hfit).
  apply num_bytes_le_iff in Hfit.
  pose proof (num_bytes_nonneg x) as Hn0.
  set (n := libssl.num_bytes x) in *.
  eexists. split; [reflexivity|].
  split; [rewrite length_app, length_replicate, length_bn2bin_bytes; lia|].
  split.
  - intros i Hi. rewrite lookup_app_l by (rewrite length_replicate; lia).
    apply lookup_replicate_2. lia.
  - intros j Hj. rewrite lookup_app_r by (rewrite length_replicate; lia).
    rewrite length_replicate.
    replace (Z.to_nat (size - 1) - j - Z.to_nat (size - n))%nat
      with (Z.to_nat n - 1 - j)%nat by lia.
    assert (Hgen : ∀ (m : nat) (y : Z) (j : nat), (j < m)%nat →
              libssl.bn2bin_bytes m y !! (m - 1 - j)%nat
              = Some (byte_of_Z (y `div` 256 ^ Z.of_nat j))).
    { clear. induction m as [|m IH]; intros y j Hj; [lia|].
      cbn [libssl.bn2bin_bytes].
      destruct (decide (j = m)) as [->|Hne].
      - replace (S m - 1 - m)%nat with 0%nat by lia. cbn [lookup list_lookup].
        f_equal. pose proof (f_equal byte_of_Z (bn2bin_digit y m)) as Hd.
        rewrite byte_of_to_Z in Hd. rewrite Hd.
        unfold byte_of_Z. rewrite Z.mod_mod by lia. reflexivity.
      - replace (S m - 1 - j)%nat with (S (m - 1 - j)) by lia.
        cbn [lookup list_lookup]. apply IH. lia. }
    apply Hgen. lia.
Qed.

(** ** Encoding, then decoding *)

(** For a BIGNUM other than zero that fits the width, decoding the encoding
    gives a new BIGNUM of the same magnitude and leaves the first one alone.
    The width goes through a C [int] and memory has to be at hand. *)
Lemma roundtrip_nonzero (w : world) (a : positive) (x size : Z) :
  bn_heap w !! a = Some x → x ≠ 0 → libssl.bit_length x ≤ 8 * size →
  size < 2 ^ 31 → memory_granted w →
  ∃ w', (s ← BNToBin (PyVoidP (Z.pos a)) size; BinToBN s) w
        = (Returned (PyVoidP (Z.pos (next_address w))), w') ∧
        bn_heap w' !! next_address w = Some (Z.abs x) ∧
        bn_heap w' !! a = Some x.
Proof.
  intros Ha Hx Hfit Hsize Hmem.
  erewrite bind_returned by (apply BNToBin_fits; eassumption).
  pose proof Hfit as Hn. apply num_bytes_le_iff in Hn.
  pose proof (num_bytes_nonneg x) as Hn0.
  set (n := libssl.num_bytes x) in *.
  set (s := replicate (Z.to_nat (size - n)) x00 ++ libssl.bn2bin_bytes (Z.to_nat n) (Z.abs x)).
  assert (Hlen : Z.of_nat (length s) = size).
  { unfold s. rewrite length_app, length_replicate, length_bn2bin_bytes. lia. }
  destruct (BinToBN_success s w Hmem ltac:(lia)) as (w' & Hrun & Hfresh & Hheap & _).
  exists w'. split; [exact Hrun|]. rewrite Hheap. split.
  - rewrite lookup_insert_eq. f_equal. unfold s. apply bin2bn_padded.
    split; [lia|].
    replace (256 ^ Z.of_nat (Z.to_nat n)) with (2 ^ (8 * n))
      by (rewrite Z2Nat.id, Z.pow_mul_r by lia; reflexivity).
    apply bit_length_bound; [lia|]. pose proof (num_bytes_spec x). lia.
  - rewrite lookup_insert_ne; [exact Ha|]. intros Heq. congruence.
Qed.

(** C2, at the failing input: the BIGNUM zero fits 4 bytes, but its encoding
    is [None], and decoding [None] raises [TypeError]. *)
Theorem roundtrip_zero_raises :
  libssl.bit_length 0 ≤ 8 * 4 ∧
  ((s ← BNToBin (PyVoidP 1) 4; BinToBN s) (world_with 0)).1 = Raised TypeError.
Proof. split; vm_compute; [discriminate|reflexivity]. Qed.

(** ** Failures of the native library *)

(** C8, at the failing input. The check passes NULL on: a NULL result never
    becomes an exception. When [BN_new] finds no memory, [_ssl.BN_new()]
    returns a [c_void_p] instance holding NULL and the error code stays in
    the queue of the library. *)
Theorem native_failure_not_raised :
  (∀ func_name args w,
     _check_res_void_p (restype_c_void_p NULL) func_name args w
     = (Returned (PyVoidP NULL), w)) ∧
  _ssl_BN_new (world_short_of_memory [false])
  = (Returned (PyVoidP NULL),
     set_err_queue [libssl.ERR_PACK libssl.ERR_LIB_BN 4095 libssl.ERR_R_MALLOC_FAILURE]
       (world_short_of_memory [])).
Proof.
  split; [|vm_compute; reflexivity].
  intros func_name args w. apply check_res_of_pointer.
Qed.

(** For every pair without an inverse the binding returns a handle on NULL,
    whether or not there is memory for the result. *)
Lemma BN_mod_inverse_no_inverse (w : world) (a n : positive) (va vn : Z) (ctx : pointer) :
  bn_heap w !! a = Some va → bn_heap w !! n = Some vn → Z.gcd va vn ≠ 1 →
  ∃ w', _ssl_BN_mod_inverse PyNone (PyVoidP (Z.pos a)) (PyVoidP (Z.pos n)) (PyVoidP ctx) w
        = (Returned (PyVoidP NULL), w').
Proof.
  intros Ha Hn Hgcd.
  assert (Hnone : libssl.mod_inverse va vn = None).
  { unfold libssl.mod_inverse. destruct (Z.eqb_spec (Z.gcd va vn) 1); [done|reflexivity]. }
  assert (Hnative : ∃ w', libssl.BN_mod_inverse NULL (Z.pos a) (Z.pos n) ctx w
                          = (Returned NULL, w')).
  { unfold libssl.BN_mod_inverse.
    erewrite bind_returned by (apply run_deref; exact Ha).
    erewrite bind_returned by (apply run_deref; exact Hn).
    cbn [Z.eqb NULL].
    destruct (BN_new_cases w) as [(b & w1 & Hnew & Hlive & _)|(w1 & Hnew)];
      erewrite bind_returned by exact Hnew; [|run_py; eauto].
    cbn [Z.eqb NULL].
    erewrite bind_returned by (apply run_deref; exact Hlive).
    rewrite Hnone. unfold libssl.BNerror.
    erewrite (bind_returned (modify_world _)) by reflexivity.
    unfold libssl.BN_free. cbn [Z.eqb NULL].
    erewrite (bind_returned (libssl.deref _ ≫= _)).
    2:{ erewrite bind_returned; [reflexivity|]. apply run_deref. exact Hlive. }
    run_py; eauto. }
  destruct Hnative as (w' & Hnative). exists w'.
  unfold _ssl_BN_mod_inverse. cbn [from_param_c_void_p].
  do 4 (erewrite (bind_returned (mret _)) by reflexivity).
  unfold checked_void_p. erewrite bind_returned by exact Hnative.
  apply check_res_of_pointer.
Qed.

(** C6, at the failing input: 2 has no inverse modulo 4; the native call
    returns NULL and queues [BN_R_NO_INVERSE], and the binding returns a
    [c_void_p] instance holding NULL without raising. *)
Theorem mod_inverse_2_4_not_raised :
  Z.gcd 2 4 ≠ 1 ∧
  _ssl_BN_mod_inverse PyNone (PyVoidP 1) (PyVoidP 2) PyNone world_2_4
  = (Returned (PyVoidP NULL),
     set_err_queue [libssl.ERR_PACK libssl.ERR_LIB_BN 4095 libssl.BN_R_NO_INVERSE]
       world_2_4).
Proof. split; [discriminate|vm_compute; reflexivity]. Qed.

(** C5, at the failing inputs. With no memory for [BN_new], [BinToBN]
    returns a handle on NULL. With memory for the BIGNUM but none for its
    digits, it returns a handle on a BIGNUM that is still zero, for the byte
    string 01. Neither call raises. *)
Theorem BinToBN_failure_not_raised :
  (BinToBN (PyBytes [x01]) (world_short_of_memory [false])).1
  = Returned (PyVoidP NULL) ∧
  ∃ w', BinToBN (PyBytes [x01]) (world_short_of_memory [true; false])
        = (Returned (PyVoidP 1), w') ∧
        bn_heap w' !! 1%positive = Some 0 ∧
        libssl.bin2bn_value [x01] = 1.
Proof.
  split; [vm_compute; reflexivity|].
  eexists. split; [vm_compute; reflexivity|]. split; reflexivity.
Qed.



(** ** Blinding *)

Module BlindingFacts.
Import Blinding.

(** Fermat's little theorem, for an exponent that is 1 modulo [p - 1]. *)
Lemma pow_cycle_prime (p x k : Z) :
  Z.prime p → 0 < k → (p - 1 | k - 1) → x ^ k `mod` p = x `mod` p.
Proof.
  intros Hp Hk [c Hc].
  pose proof (Z.prime_ge_2 p Hp) as Hp2.
  assert (Hc0 : 0 ≤ c) by nia.
  replace k with (1 + (p - 1) * c) by lia.
  destruct (Z.eq_dec (x `mod` p) 0) as [Hx0|Hx0].
  - rewrite <- Z.mod_pow_l, Hx0.
    rewrite Z.pow_0_l by nia. rewrite Z.mod_0_l by lia. reflexivity.
  - rewrite Z.pow_add_r, Z.pow_1_r, Z.pow_mul_r by nia.
    rewrite Z.mul_mod, <- (Z.mod_pow_l (x ^ (p - 1))) by lia.
    rewrite (Z.fermat_nz p x Hp Hx0).
    rewrite Z.pow_1_l by lia. rewrite (Z.mod_1_l p) by lia.
    rewrite Z.mul_1_r. apply Z.mod_mod. lia.
Qed.


(** The private exponent undoes the public one modulo [n], on every
    integer. *)
Lemma rsa_cycle (k : RsaKey) (x : Z) :
  RsaKey_ok k → x ^ (rsa_e k * rsa_d k) `mod` rsa_n k = x `mod` rsa_n k.
Proof.
  intros (Hp & Hq & Hpq & Hn & He & Hd & Hdp & Hdq).
  pose proof (Z.prime_ge_2 _ Hp) as Hp2. pose proof (Z.prime_ge_2 _ Hq) as Hq2.
  assert (Hed : 0 < rsa_e k * rsa_d k) by nia.
  apply Z.cong_iff_ex.
  pose proof (pow_cycle_prime _ x _ Hp Hed Hdp) as Ep.
  pose proof (pow_cycle_prime _ x _ Hq Hed Hdq) as Eq.
  apply Z.cong_iff_ex in Ep as [cp Ep]. apply Z.cong_iff_ex in Eq as [cq Eq].
  assert (Hco : Z.gcd (rsa_q k) (rsa_p k) = 1).
  { apply Z.coprime_prime_l; [exact Hq|]. intros Hdiv.
    apply Z.divide_prime_prime in Hdiv; [congruence|exact Hq|exact Hp]. }
  assert (Hdiv : (rsa_q k | cp)).
  { apply (Z.gauss _ (rsa_p k)); [|exact Hco].
    exists cq. rewrite <- Eq, Ep. ring. }
  destruct Hdiv as [c Hc]. exists c. rewrite Ep, Hc, Hn. ring.
Qed.

(** The RSA inverse property of the design document, in both directions. *)
Lemma raw_op_inverse (k : RsaKey) (use_private : bool) (m : Z) :
  RsaKey_ok k → 0 ≤ m < rsa_n k →
  raw_op k (negb use_private) (raw_op k use_private m) = m.
Proof.
  intros Hk Hm. unfold raw_op.
  pose proof Hk as (_ & _ & _ & _ & He & Hd & _).
  rewrite Z.mod_pow_l, <- Z.pow_mul_r by (destruct use_private; cbn; lia).
  replace (exponent k use_private * exponent k (negb use_private))
    with (rsa_e k * rsa_d k) by (destruct use_private; cbn; ring).
  rewrite rsa_cycle by exact Hk. apply Z.mod_small. exact Hm.
Qed.





End BlindingFacts.




(** * Further properties of the helpers *)

(** ** Running the monad, continued *)

Lemma deref_cases (p : pointer) (w : world) :
  (∃ a x, p = Z.pos a ∧ bn_heap w !! a = Some x ∧ libssl.deref p w = (Returned x, w)) ∨
  libssl.deref p w = (Crashed, w).
Proof.
  unfold libssl.deref. destruct p as [|a|a]; [by right| |by right].
  destruct (bn_heap w !! a) as [x|] eqn:Ha; [left; eauto|by right].
Qed.

Lemma from_param_c_void_p_cases (bn : pyval) (w : world) :
  (∃ p, from_param_c_void_p bn w = (Returned p, w)) ∨
  from_param_c_void_p bn w = (Crashed, w).
Proof. destruct bn; cbn; eauto. Qed.

(** What the two native calls of [BNToBin] do with the handle they get:
    either it leads to a BIGNUM, and both work on that one, or the first
    call already follows a pointer to no BIGNUM. *)
Lemma handle_cases (bn : pyval) (w : world) :
  (∃ x, BN_num_bytes bn w = (Returned (libssl.num_bytes x), w) ∧
        ∀ data offset,
          _ssl_BN_bn2bin bn data offset w
          = let m := libssl.poke_bytes offset
                       (libssl.bn2bin_bytes (Z.to_nat (libssl.num_bytes x)) (Z.abs x))
                       (data, []) in
            (match m.2 with
             | [] => Returned (libssl.num_bytes x, m.1)
             | _ :: _ => Crashed
             end,
             set_stray_writes (stray_writes w ++ m.2) w)) ∨
  BN_num_bytes bn w = (Crashed, w).
Proof.
  unfold BN_num_bytes, _ssl_BN_num_bits, _ssl_BN_bn2bin, libssl.BN_num_bits,
    libssl.BN_bn2bin.
  destruct (from_param_c_void_p_cases bn w) as [[p Hp]|Hp].
  - destruct (deref_cases p w) as [(a & x & -> & Ha & Hd)|Hd].
    + left. exists x. split.
      * erewrite bind_returned.
        2:{ erewrite bind_returned by exact Hp.
            erewrite bind_returned by exact Hd. reflexivity. }
        reflexivity.
      * intros data offset. erewrite bind_returned by exact Hp.
        erewrite bind_returned by exact Hd.
        unfold mbind, py_bind, mret, py_ret, modify_world, crash. cbv zeta.
        destruct (libssl.poke_bytes _ _ _).2; reflexivity.
    + right. apply bind_crashed. erewrite bind_returned by exact Hp.
      apply bind_crashed. exact Hd.
  - right. apply bind_crashed. apply bind_crashed. exact Hp.
Qed.

(** The ways a call of [BNToBin] on a handle, with a width that is not
    negative, can end. *)
Lemma BNToBin_cases (bn : pyval) (size : Z) (w : world) :
  bn ≠ PyNone → 0 ≤ size →
  (∃ w', BNToBin bn size w = (Crashed, w')) ∨
  BNToBin bn size w = (Returned PyNone, w) ∨
  ∃ x, x ≠ 0 ∧ libssl.bit_length x ≤ 8 * size ∧
       BN_num_bytes bn w = (Returned (libssl.num_bytes x), w) ∧
       BNToBin bn size w
       = (Returned (PyBytes (replicate (Z.to_nat (size - libssl.num_bytes x)) x00
                             ++ libssl.bn2bin_bytes (Z.to_nat (libssl.num_bytes x))
                                  (Z.abs x))),
          w).
Proof.
  intros Hbn Hsize.
  destruct (handle_cases bn w) as [(x & Hn & Hb)|Hc].
  - destruct (BNToBin_on_value bn size x w Hbn Hsize Hn Hb) as (Hzero & Hfits & Hbig).
    destruct (Z.eq_dec x 0) as [Hx|Hx]; [right; left; auto|].
    destruct (Z.le_gt_cases (libssl.bit_length x) (8 * size)) as [Hle|Hgt].
    + right. right. exists x. auto.
    + left. eexists. apply Hbig. lia.
  - left. exists w. rewrite (BNToBin_unfold bn size Hbn).
    erewrite bind_returned by (apply run_create_string_buffer; exact Hsize).
    apply bind_crashed. exact Hc.
Qed.

(** ** [BNToBin]: what every call does *)

(** X1. Whatever [BNToBin] raises was raised by [create_string_buffer], on
    a handle other than [None]: once the buffer is made nothing raises,
    neither the two native calls nor the zero-filling loop, whose indices
    always lie inside the buffer. *)
Theorem BNToBin_raises_only_from_buffer (bn : pyval) (size : Z) (w : world) (e : exn) :
  (BNToBin bn size w).1 = Raised e →
  bn ≠ PyNone ∧ create_string_buffer size w = (Raised e, w).
Proof.
  intros Hraise.
  destruct (pyval_None_dec bn) as [->|Hbn]; [discriminate|].
  split; [exact Hbn|].
  destruct (Z.lt_ge_cases size 0) as [Hneg|Hpos].
  - rewrite (BNToBin_negative_size_raises bn size w Hbn Hneg) in Hraise.
    inversion Hraise. unfold create_string_buffer.
    destruct (Z.ltb_spec size 0); [reflexivity|lia].
  - destruct (BNToBin_cases bn size w Hbn Hpos)
      as [[w' Hc]|[Hn|(x & _ & _ & _ & Hs)]];
      rewrite ?Hc, ?Hn, ?Hs in Hraise; discriminate.
Qed.

Lemma BNToBin_raises_only_from_buffer_witness :
  (BNToBin (PyVoidP 1) (-1) (world_with 256)).1 = Raised ValueError ∧
  PyVoidP 1 ≠ PyNone ∧
  create_string_buffer (-1) (world_with 256) = (Raised ValueError, world_with 256).
Proof.
  split; [reflexivity|].
  exact (BNToBin_raises_only_from_buffer (PyVoidP 1) (-1) (world_with 256) ValueError
           eq_refl).
Defined.



(** X3. [BNToBin] only reads. Whatever it is given, a call that returns or
    raises leaves the whole state as it found it: the BIGNUMs, the error
    queue, the allocation plan and the memory around the buffer. *)
Theorem BNToBin_reads_only (bn : pyval) (size : Z) (w : world) :
  (BNToBin bn size w).1 ≠ Crashed → (BNToBin bn size w).2 = w.
Proof.
  intros Hdef.
  destruct (pyval_None_dec bn) as [->|Hbn]; [reflexivity|].
  destruct (Z.lt_ge_cases size 0) as [Hneg|Hpos].
  - rewrite (BNToBin_negative_size_raises bn size w Hbn Hneg). reflexivity.
  - destruct (BNToBin_cases bn size w Hbn Hpos)
      as [[w' Hc]|[Hn|(x & _ & _ & _ & Hs)]].
    + rewrite Hc in Hdef. by destruct Hdef.
    + rewrite Hn. reflexivity.
    + rewrite Hs. reflexivity.
Qed.

Lemma BNToBin_reads_only_witness :
  (BNToBin (PyVoidP 1) 4 (world_with 256)).1 ≠ Crashed ∧
  (BNToBin (PyVoidP 1) 4 (world_with 256)).2 = world_with 256.
Proof.
  assert (H : (BNToBin (PyVoidP 1) 4 (world_with 256)).1 ≠ Crashed)
    by (vm_compute; discriminate).
  split; [exact H|].
  exact (BNToBin_reads_only (PyVoidP 1) 4 (world_with 256) H).
Defined.

(** X4. A BIGNUM other than zero that fits the width is encoded on exactly
    [size] bytes: zero bytes, then the magnitude, most significant byte
    first; read as a big-endian number the result is the magnitude; and the
    state is left as it was, so nothing was written outside the buffer. *)
Theorem BNToBin_encodes_magnitude (w : world) (a : positive) (x size : Z) :
  bn_heap w !! a = Some x → x ≠ 0 → libssl.bit_length x ≤ 8 * size →
  ∃ s, BNToBin (PyVoidP (Z.pos a)) size w = (Returned (PyBytes s), w) ∧
       Z.of_nat (length s) = size ∧
       take (Z.to_nat (size - libssl.num_bytes x)) s
       = replicate (Z.to_nat (size - libssl.num_bytes x)) x00 ∧
       libssl.bin2bn_value s = Z.abs x.
Proof.
  intros Ha Hx Hfit.
  rewrite (BNToBin_fits w a x size Ha Hx Hfit).
  pose proof Hfit as Hle. apply num_bytes_le_iff in Hle.
  pose proof (num_bytes_nonneg x) as Hn0.
  pose proof (num_bytes_spec x) as Hspec.
  set (n := libssl.num_bytes x) in *.
  eexists. split; [reflexivity|].
  split; [rewrite length_app, length_replicate, length_bn2bin_bytes; lia|].
  split.
  - rewrite take_app_length'; [reflexivity|]. symmetry. apply length_replicate.
  - apply bin2bn_padded. split; [lia|].
    replace (256 ^ Z.of_nat (Z.to_nat n)) with (2 ^ (8 * n))
      by (rewrite Z2Nat.id, Z.pow_mul_r by lia; reflexivity).
    apply bit_length_bound; lia.
Qed.

Lemma BNToBin_encodes_magnitude_witness :
  bn_heap (world_with (-258)) !! 1%positive = Some (-258) ∧ -258 ≠ 0 ∧
  libssl.bit_length (-258) ≤ 8 * 4 ∧
  ∃ s, BNToBin (PyVoidP 1) 4 (world_with (-258)) = (Returned (PyBytes s), world_with (-258)) ∧
       Z.of_nat (length s) = 4 ∧
       take (Z.to_nat (4 - libssl.num_bytes (-258))) s
       = replicate (Z.to_nat (4 - libssl.num_bytes (-258))) x00 ∧
       libssl.bin2bn_value s = Z.abs (-258).
Proof.
  split; [reflexivity|]. split; [lia|]. split; [vm_compute; discriminate|].
  apply (BNToBin_encodes_magnitude (world_with (-258)) 1 (-258) 4);
    [reflexivity|lia|vm_compute; discriminate].
Defined.



(** ** Big-endian byte strings, continued *)






(** ** [BinToBN], continued *)







(** X9. A value that is no byte string is refused only after [BN_new] ran:
    [BinToBN] raises ([ArgumentError] for a text string, [TypeError] for the
    rest) and the BIGNUM it had allocated stays allocated, out of reach. *)
Theorem BinToBN_rejects_after_allocating (s : pyval) (w : world) :
  (∀ b, s ≠ PyBytes b) → memory_granted w →
  ∃ w', BinToBN s w
        = (Raised (match s with PyStr _ => ArgumentError | _ => TypeError end), w') ∧
        bn_heap w !! next_address w = None ∧
        bn_heap w' = <[next_address w := 0]> (bn_heap w).
Proof.
  intros Hs Hmem.
  destruct (run_ssl_BN_new_granted w Hmem) as (w1 & Hnew & Hh1 & _).
  exists w1. split; [|split; [apply next_address_fresh|exact Hh1]].
  unfold BinToBN. erewrite bind_returned by exact Hnew.
  destruct s as [|z|b|t|p]; try reflexivity.
  by destruct (Hs b).
Qed.

Lemma BinToBN_rejects_after_allocating_witness :
  (∀ b, PyStr "01" ≠ PyBytes b) ∧ memory_granted (world_with 7) ∧
  ∃ w', BinToBN (PyStr "01") (world_with 7) = (Raised ArgumentError, w') ∧
        bn_heap (world_with 7) !! next_address (world_with 7) = None ∧
        bn_heap w' = <[next_address (world_with 7) := 0]> (bn_heap (world_with 7)).
Proof.
  assert (Hs : ∀ b, PyStr "01" ≠ PyBytes b) by (intros b; discriminate).
  assert (Hmem : memory_granted (world_with 7))
    by (split; [constructor|vm_compute; reflexivity]).
  split; [exact Hs|]. split; [exact Hmem|].
  exact (BinToBN_rejects_after_allocating (PyStr "01") (world_with 7) Hs Hmem).
Defined.

(** ** [_free_bn] *)

Lemma run_BN_free_live (w : world) (a : positive) (x : Z) :
  bn_heap w !! a = Some x →
  libssl.BN_free (Z.pos a) w = (Returned (), set_bn_heap (delete a (bn_heap w)) w).
Proof.
  intros Ha. unfold libssl.BN_free. cbn [Z.eqb NULL].
  erewrite bind_returned by (apply run_deref; exact Ha). reflexivity.
Qed.

Lemma run_BN_free_dangling (w : world) (a : positive) :
  bn_heap w !! a = None → libssl.BN_free (Z.pos a) w = (Crashed, w).
Proof.
  intros Ha. unfold libssl.BN_free. cbn [Z.eqb NULL].
  apply bind_crashed. unfold libssl.deref. rewrite Ha. reflexivity.
Qed.

(** X10. [_free_bn] on a live handle releases that BIGNUM and no other, and
    queues no error. After it, [None] and a handle on NULL are still
    accepted and change nothing, while the handle just freed is dangling: a
    second [_free_bn] on it hands freed memory to [BN_free], which is
    undefined in C and where the model stops ([Crashed]). *)
Theorem free_bn_releases (w : world) (a : positive) (x : Z) :
  bn_heap w !! a = Some x →
  ∃ w', _free_bn (PyVoidP (Z.pos a)) w = (Returned PyNone, w') ∧
        bn_heap w' !! a = None ∧
        (∀ b, b ≠ a → bn_heap w' !! b = bn_heap w !! b) ∧
        err_queue w' = err_queue w ∧
        _free_bn PyNone w' = (Returned PyNone, w') ∧
        _free_bn (PyVoidP NULL) w' = (Returned PyNone, w') ∧
        _free_bn (PyVoidP (Z.pos a)) w' = (Crashed, w').
Proof.
  intros Ha. exists (set_bn_heap (delete a (bn_heap w)) w).
  split.
  { unfold _free_bn, _ssl_BN_free. cbn [from_param_c_void_p].
    erewrite (bind_returned (mret _)) by reflexivity.
    erewrite bind_returned by (eapply run_BN_free_live; exact Ha). reflexivity. }
  cbn [set_bn_heap bn_heap err_queue].
  split; [apply lookup_delete_eq|].
  split; [intros b Hb; apply lookup_delete_ne; congruence|].
  split; [reflexivity|]. split; [reflexivity|]. split; [reflexivity|].
  unfold _free_bn, _ssl_BN_free. cbn [from_param_c_void_p].
  erewrite (bind_returned (mret _)) by reflexivity.
  apply bind_crashed. apply run_BN_free_dangling. cbn. apply lookup_delete_eq.
Qed.

Lemma free_bn_releases_witness :
  bn_heap world_2_4 !! 1%positive = Some 2 ∧
  ∃ w', _free_bn (PyVoidP 1) world_2_4 = (Returned PyNone, w') ∧
        bn_heap w' !! 1%positive = None ∧
        (∀ b, b ≠ 1%positive → bn_heap w' !! b = bn_heap world_2_4 !! b) ∧
        err_queue w' = err_queue world_2_4 ∧
        _free_bn PyNone w' = (Returned PyNone, w') ∧
        _free_bn (PyVoidP NULL) w' = (Returned PyNone, w') ∧
        _free_bn (PyVoidP 1) w' = (Crashed, w').
Proof.
  split; [reflexivity|].
  exact (free_bn_releases world_2_4 1 2 eq_refl).
Defined.



Lemma ssl_BN_new_total (w : world) :
  ∃ p w1, _ssl_BN_new w = (Returned (PyVoidP p), w1).
Proof.
  unfold _ssl_BN_new, checked_void_p.
  destruct (BN_new_cases w) as [(a & w1 & Hnew & _ & _)|(w1 & Hnew)];
    erewrite bind_returned by exact Hnew; rewrite check_res_of_pointer; eauto.
Qed.

(** X12. [BinToBN] raises for arguments that are no byte strings and for
    nothing else: [ArgumentError] for a text string, [TypeError] for [None],
    an integer or a handle. In particular it never raises
    [LibreSSLException], with or without memory. *)
Theorem BinToBN_raises_only_for_non_bytes (s : pyval) (w : world) (e : exn) :
  (BinToBN s w).1 = Raised e →
  (∀ b, s ≠ PyBytes b) ∧
  e = match s with PyStr _ => ArgumentError | _ => TypeError end.
Proof.
  intros Hraise.
  destruct (ssl_BN_new_total w) as (p & w1 & Hnew).
  assert (Hrun : ∀ s', (∀ b, s' ≠ PyBytes b) →
            BinToBN s' w
            = (Raised (match s' with PyStr _ => ArgumentError | _ => TypeError end), w1)).
  { intros s' Hs'. unfold BinToBN. erewrite bind_returned by exact Hnew.
    destruct s' as [|z|b|t|q]; try reflexivity. by destruct (Hs' b). }
  destruct s as [|z|b|t|q];
    try (rewrite Hrun in Hraise by (intros b'; discriminate);
         inversion Hraise; split; [intros b'; discriminate|reflexivity]).
  destruct (BinToBN_total b w) as (q & w' & Hret). rewrite Hret in Hraise. discriminate.
Qed.

Lemma BinToBN_raises_only_for_non_bytes_witness :
  (BinToBN PyNone (world_with 7)).1 = Raised TypeError ∧
  (∀ b, PyNone ≠ PyBytes b) ∧ TypeError = TypeError.
Proof.
  assert (H : (BinToBN PyNone (world_with 7)).1 = Raised TypeError)
    by (vm_compute; reflexivity).
  split; [exact H|].
  exact (BinToBN_raises_only_for_non_bytes PyNone (world_with 7) TypeError H).
Defined.

(** ** The error reports *)

Lemma length_substring_le (n : nat) (s : string) :
  (String.length (String.substring 0 n s) ≤ n)%nat.
Proof.
  revert s. induction n as [|n IH]; intros [|c s]; simpl; try lia.
  specialize (IH s). lia.
Qed.

(** X13. [_print_ssl_error] always raises [LibreSSLException]: it takes the
    oldest error out of the queue of the library (code 0 when the queue is
    empty), reads the code as a C [int], and the message is the text of a
    byte string of at most 119 characters. The BIGNUMs are not touched. *)
Theorem print_ssl_error_raises (w : world) :
  ∃ text w',
    _print_ssl_error w
    = (Raised (LibreSSLException (c_int (hd 0 (err_queue w))) (str_of_bytes text)), w') ∧
    (String.length text ≤ 119)%nat ∧
    err_queue w' = tl (err_queue w) ∧ bn_heap w' = bn_heap w.
Proof.
  unfold _print_ssl_error, _ssl_ERR_get_error, _ssl_ERR_error_string_n,
    libssl.ERR_get_error, libssl.ERR_error_string_n.
  unfold mbind, py_bind, mret, py_ret, get_world, raise.
  destruct (err_queue w) as [|e q] eqn:Hq; do 2 eexists;
    (split; [reflexivity|]); (split; [apply length_substring_le|]); cbn; auto.
Qed.

(** X14. Entered with the integer 0, [_check_res_void_p] never returns: it
    takes the oldest error out of the queue, and then raises
    [LibreSSLException] with that code and the message
    [name(arg,...): b'text'] if every argument is a text string, and
    [TypeError] from [','.join(args)] otherwise; in that case the error it
    took from the queue is reported nowhere. *)
Theorem check_res_zero_consumes_error (func_name : string) (args : list pyval)
  (w : world) :
  ∃ e w',
    _check_res_void_p (PyInt 0) func_name args w = (Raised e, w') ∧
    err_queue w' = tl (err_queue w) ∧ bn_heap w' = bn_heap w ∧
    match str_items args with
    | Some items =>
        ∃ text,
          (String.length text ≤ 119)%nat ∧
          e = LibreSSLException (c_int (hd 0 (err_queue w)))
                (String.append
                   (String.append func_name
                      (String.append "(" (String.append (String.concat "," items) "): ")))
                   (str_of_bytes text))
    | None => e = TypeError
    end.
Proof.
  unfold _check_res_void_p, _ssl_ERR_get_error, _ssl_ERR_error_string_n,
    libssl.ERR_get_error, libssl.ERR_error_string_n, str_join.
  cbn [py_eq_int Z.eqb].
  unfold mbind, py_bind, mret, py_ret, get_world, raise.
  destruct (err_queue w) as [|c q] eqn:Hq; destruct (str_items args) as [items|];
    do 2 eexists; (split; [reflexivity|]); cbn;
    (split; [auto|]); (split; [reflexivity|]);
    try reflexivity; eexists; (split; [apply length_substring_le|reflexivity]).
Qed.

(** X15. A pointer result comes back whole. For every address of 64 bits,
    NULL included, the check hands back a [c_void_p] instance and not a
    Python integer, it reads no error and changes nothing, and the instance
    passed on to a native function as an argument is that address again. *)
Theorem handle_comes_back_whole (p : pointer) (func_name : string)
  (args : list pyval) (w : world) :
  0 ≤ p < 2 ^ pointer_bits →
  ∃ h, _check_res_void_p (restype_c_void_p p) func_name args w = (Returned h, w) ∧
       (∀ z, h ≠ PyInt z) ∧
       from_param_c_void_p h w = (Returned p, w).
Proof.
  intros Hp. exists (PyVoidP p). split.
  - rewrite check_res_of_pointer, Z.mod_small by exact Hp. reflexivity.
  - split; [intros z; discriminate|reflexivity].
Qed.

Lemma handle_comes_back_whole_witness :
  0 ≤ 140737488355328 < 2 ^ pointer_bits ∧
  ∃ h, _check_res_void_p (restype_c_void_p 140737488355328) "BN_new" [] (world_with 7)
       = (Returned h, world_with 7) ∧
       (∀ z, h ≠ PyInt z) ∧
       from_param_c_void_p h (world_with 7) = (Returned 140737488355328, world_with 7).
Proof.
  assert (H : 0 ≤ 140737488355328 < 2 ^ pointer_bits) by (split; [lia|reflexivity]).
  split; [exact H|].
  exact (handle_comes_back_whole 140737488355328 "BN_new" [] (world_with 7) H).
Defined.

(** ** [BN_num_bytes], continued *)

(** X16. For a live BIGNUM [BN_num_bytes] returns the least number of bytes
    that hold the magnitude: the magnitude is below [256 ^ k], and not below
    [256 ^ (k - 1)] unless the BIGNUM is zero, for which the result is 0. *)
Theorem BN_num_bytes_bounds (w : world) (a : positive) (x : Z) :
  bn_heap w !! a = Some x →
  ∃ k, BN_num_bytes (PyVoidP (Z.pos a)) w = (Returned k, w) ∧
       0 ≤ k ∧ Z.abs x < 256 ^ k ∧ (k = 0 ↔ x = 0) ∧
       (x ≠ 0 → 256 ^ (k - 1) ≤ Z.abs x).
Proof.
  intros Ha. exists (libssl.num_bytes x).
  split; [apply run_BN_num_bytes; exact Ha|].
  pose proof (num_bytes_nonneg x) as Hn0.
  pose proof (num_bytes_spec x) as Hspec.
  pose proof (bit_length_nonneg x) as Hb0.
  set (k := libssl.num_bytes x) in *.
  split; [exact Hn0|]. split; [|split; [apply num_bytes_zero_iff|]].
  - replace (256 ^ k) with (2 ^ (8 * k)) by (rewrite Z.pow_mul_r by lia; reflexivity).
    apply bit_length_bound; lia.
  - intros Hx. pose proof (bit_length_spec x Hx) as [Hlow _].
    assert (Hk : k ≠ 0) by (unfold k; rewrite num_bytes_zero_iff; exact Hx).
    replace (256 ^ (k - 1)) with (2 ^ (8 * (k - 1)))
      by (rewrite Z.pow_mul_r by lia; reflexivity).
    eapply Z.le_trans; [|exact Hlow]. apply Z.pow_le_mono_r; lia.
Qed.

Lemma BN_num_bytes_bounds_witness :
  bn_heap (world_with 65536) !! 1%positive = Some 65536 ∧
  ∃ k, BN_num_bytes (PyVoidP 1) (world_with 65536) = (Returned k, world_with 65536) ∧
       0 ≤ k ∧ Z.abs 65536 < 256 ^ k ∧ (k = 0 ↔ 65536 = 0) ∧
       (65536 ≠ 0 → 256 ^ (k - 1) ≤ Z.abs 65536).
Proof.
  split; [reflexivity|].
  exact (BN_num_bytes_bounds (world_with 65536) 1 65536 eq_refl).
Defined.

(** ** [ECDSA_SIG_st.__del__] *)

Lemma run_ssl_BN_free_field (w : world) (a : positive) (x : Z) :
  bn_heap w !! a = Some x → Z.pos a < 2 ^ pointer_bits →
  _ssl_BN_free (getfield_c_void_p (Z.pos a)) w
  = (Returned PyNone, set_bn_heap (delete a (bn_heap w)) w).
Proof.
  intros Ha Hsmall. unfold _ssl_BN_free, getfield_c_void_p, restype_c_void_p.
  cbn [Z.eqb NULL from_param_c_void_p].
  erewrite (bind_returned (mret _)) by reflexivity.
  rewrite Z.mod_small by lia.
  erewrite bind_returned by (eapply run_BN_free_live; exact Ha). reflexivity.
Qed.

(** X17. When a signature structure goes away, [__del__] frees the BIGNUMs
    its two fields point to, and nothing else; a structure whose fields are
    NULL is left alone. *)
Theorem ECDSA_SIG_del_releases (w : world) (a b : positive) (x y : Z) :
  bn_heap w !! a = Some x → bn_heap w !! b = Some y → a ≠ b →
  Z.pos a < 2 ^ pointer_bits → Z.pos b < 2 ^ pointer_bits →
  (∃ w', ECDSA_SIG_st_del {| sig_r := Z.pos a; sig_s := Z.pos b |} w
         = (Returned PyNone, w') ∧
         bn_heap w' = delete b (delete a (bn_heap w)) ∧
         err_queue w' = err_queue w) ∧
  ECDSA_SIG_st_del {| sig_r := NULL; sig_s := NULL |} w = (Returned PyNone, w).
Proof.
  intros Ha Hb Hab Hsa Hsb. split; [|reflexivity].
  eexists. split.
  - unfold ECDSA_SIG_st_del. cbn [sig_r sig_s].
    erewrite bind_returned by (eapply run_ssl_BN_free_field; eassumption).
    erewrite bind_returned.
    2:{ eapply run_ssl_BN_free_field; [|exact Hsb].
        cbn [set_bn_heap bn_heap]. rewrite lookup_delete_ne by exact Hab. exact Hb. }
    reflexivity.
  - cbn [set_bn_heap bn_heap err_queue]. auto.
Qed.

Lemma ECDSA_SIG_del_releases_witness :
  bn_heap world_2_4 !! 1%positive = Some 2 ∧ bn_heap world_2_4 !! 2%positive = Some 4 ∧
  1%positive ≠ 2%positive ∧ 1 < 2 ^ pointer_bits ∧ 2 < 2 ^ pointer_bits ∧
  (∃ w', ECDSA_SIG_st_del {| sig_r := 1; sig_s := 2 |} world_2_4 = (Returned PyNone, w') ∧
         bn_heap w' = delete 2%positive (delete 1%positive (bn_heap world_2_4)) ∧
         err_queue w' = err_queue world_2_4) ∧
  ECDSA_SIG_st_del {| sig_r := NULL; sig_s := NULL |} world_2_4
  = (Returned PyNone, world_2_4).
Proof.
  split; [reflexivity|]. split; [reflexivity|]. split; [discriminate|].
  split; [reflexivity|]. split; [reflexivity|].
  apply (ECDSA_SIG_del_releases world_2_4 1 2 2 4);
    [reflexivity|reflexivity|discriminate|reflexivity|reflexivity].
Defined.

(** X18. A structure whose two fields point to the same BIGNUM makes
    [__del__] free it twice: the first call of [BN_free] releases it, the
    second one is handed freed memory, which is undefined in C and where the
    model stops ([Crashed]). *)
Theorem ECDSA_SIG_del_shared_component (w : world) (a : positive) (x : Z) :
  bn_heap w !! a = Some x → Z.pos a < 2 ^ pointer_bits →
  ECDSA_SIG_st_del {| sig_r := Z.pos a; sig_s := Z.pos a |} w
  = (Crashed, set_bn_heap (delete a (bn_heap w)) w).
Proof.
  intros Ha Hsa. unfold ECDSA_SIG_st_del. cbn [sig_r sig_s].
  erewrite bind_returned by (eapply run_ssl_BN_free_field; eassumption).
  apply bind_crashed.
  unfold _ssl_BN_free, getfield_c_void_p, restype_c_void_p.
  cbn [Z.eqb NULL from_param_c_void_p].
  erewrite (bind_returned (mret _)) by reflexivity.
  rewrite Z.mod_small by lia.
  apply bind_crashed. apply run_BN_free_dangling.
  cbn [set_bn_heap bn_heap]. apply lookup_delete_eq.
Qed.

Lemma ECDSA_SIG_del_shared_component_witness :
  bn_heap (world_with 7) !! 1%positive = Some 7 ∧ 1 < 2 ^ pointer_bits ∧
  ECDSA_SIG_st_del {| sig_r := 1; sig_s := 1 |} (world_with 7)
  = (Crashed, set_bn_heap (delete 1%positive (bn_heap (world_with 7))) (world_with 7)).
Proof.
  split; [reflexivity|]. split; [reflexivity|].
  apply (ECDSA_SIG_del_shared_component (world_with 7) 1 7); reflexivity.
Defined.

(** ** What [BinToBN] leaves alone *)

Section keeps.
Variables (a : positive) (x : Z).

Lemma keeps_ret {A : Type} (v : A) (R : A → Prop) : R v → keeps a x (mret v) R.
Proof. intros Hv w Hw. split; [exact Hw|]. intros v' Hv'. inversion Hv'. by subst. Qed.

Lemma keeps_raise {A : Type} (e : exn) (R : A → Prop) : keeps a x (raise e) R.
Proof. intros w Hw. split; [exact Hw|discriminate]. Qed.

Lemma keeps_crash {A : Type} (R : A → Prop) : keeps a x crash R.
Proof. intros w Hw. split; [exact Hw|discriminate]. Qed.

Lemma keeps_bind {A B : Type} (m : py A) (f : A → py B) (R : A → Prop) (R' : B → Prop) :
  keeps a x m R → (∀ v, R v → keeps a x (f v) R') → keeps a x (m ≫= f) R'.
Proof.
  intros Hm Hf w Hw. unfold mbind, py_bind.
  destruct (Hm w Hw) as [Hh Hv].
  destruct (m w) as [[v|e|] w1]; cbn [fst snd] in *.
  - apply Hf; [apply Hv; reflexivity|exact Hh].
  - split; [exact Hh|discriminate].
  - split; [exact Hh|discriminate].
Qed.

Lemma keeps_weaken {A : Type} (m : py A) (R R' : A → Prop) :
  keeps a x m R → (∀ v, R v → R' v) → keeps a x m R'.
Proof. intros Hm HR w Hw. destruct (Hm w Hw) as [Hh Hv]. split; [exact Hh|]. eauto. Qed.

Lemma keeps_malloc : keeps a x libssl.malloc (λ _, True).
Proof.
  intros w Hw. unfold libssl.malloc. destruct (malloc_plan w); cbn; auto.
Qed.

Lemma keeps_deref (p : pointer) : keeps a x (libssl.deref p) (λ _, ∃ b, p = Z.pos b).
Proof.
  intros w Hw. unfold libssl.deref.
  destruct p as [|b|b]; [split; [exact Hw|discriminate]| |split; [exact Hw|discriminate]].
  destruct (bn_heap w !! b); (split; [exact Hw|]); [eauto|discriminate].
Qed.

Lemma keeps_store (b : positive) (v : Z) :
  b ≠ a → keeps a x (libssl.store b v) (λ _, True).
Proof.
  intros Hb w Hw. unfold libssl.store, modify_world. cbn.
  rewrite lookup_insert_ne by exact Hb. auto.
Qed.

Lemma keeps_BNerror (r : Z) : keeps a x (libssl.BNerror r) (λ _, True).
Proof. intros w Hw. unfold libssl.BNerror, modify_world. cbn. auto. Qed.

Lemma keeps_BN_new : keeps a x libssl.BN_new (λ p, p ≠ Z.pos a).
Proof.
  unfold libssl.BN_new. eapply keeps_bind; [apply keeps_malloc|].
  intros g _ w Hw. unfold mbind, py_bind, get_world.
  assert (Hne : fresh (dom (bn_heap w)) ≠ a).
  { intros Heq. pose proof (next_address_fresh w) as Hf. unfold next_address in Hf.
    rewrite Heq in Hf. congruence. }
  destruct (g && (Z.pos (fresh (dom (bn_heap w))) <? 2 ^ pointer_bits)).
  - cbn. rewrite lookup_insert_ne by exact Hne. split; [exact Hw|].
    intros v Hv. inversion Hv. congruence.
  - cbn. split; [exact Hw|]. intros v Hv. inversion Hv. discriminate.
Qed.

Lemma keeps_BN_free (p : pointer) :
  p ≠ Z.pos a → keeps a x (libssl.BN_free p) (λ _, True).
Proof.
  intros Hp. unfold libssl.BN_free.
  destruct (p =? NULL); [apply keeps_ret; exact I|].
  eapply keeps_bind; [apply keeps_deref|].
  intros _ [b ->] w Hw. unfold modify_world. cbn.
  rewrite lookup_delete_ne by congruence. auto.
Qed.

Lemma keeps_BN_bin2bn (cs : option (list byte)) (n : Z) (p : pointer) :
  p ≠ Z.pos a → keeps a x (libssl.BN_bin2bn cs n p) (λ _, True).
Proof.
  intros Hp. unfold libssl.BN_bin2bn.
  destruct (n <? 0); [apply keeps_ret; exact I|].
  apply (keeps_bind _ _ (λ bn, bn ≠ Z.pos a ∧ (if p =? NULL then bn else p) ≠ Z.pos a)).
  { destruct (p =? NULL).
    - eapply keeps_weaken; [apply keeps_BN_new|]. auto.
    - apply keeps_ret. split; [discriminate|exact Hp]. }
  intros bn [Hbn Hr]. cbv beta zeta.
  match goal with
  | |- context [libssl.deref ?r0] => set (r := r0) in *; change (r ≠ Z.pos a) in Hr
  end.
  clearbody r.
  destruct (r =? NULL); [apply keeps_ret; exact I|].
  eapply keeps_bind; [apply keeps_deref|].
  intros _ [b ->]. cbn [Z.to_pos].
  assert (Hb : b ≠ a) by congruence.
  destruct (n =? 0).
  { eapply keeps_bind; [apply keeps_store; exact Hb|]. intros _ _. apply keeps_ret. exact I. }
  eapply keeps_bind; [apply keeps_malloc|].
  intros [|] _.
  - destruct cs as [bs|]; [|apply keeps_crash].
    eapply keeps_bind; [apply keeps_store; exact Hb|]. intros _ _. apply keeps_ret. exact I.
  - eapply keeps_bind; [apply keeps_BNerror|]. intros _ _.
    eapply keeps_bind; [apply keeps_BN_free; exact Hbn|]. intros _ _.
    apply keeps_ret. exact I.
Qed.

Lemma keeps_check_res_void_p (val : pyval) (func_name : string) (args : list pyval)
  (R : pyval → Prop) :
  (∀ p, val = PyNone ∨ (∃ z, val = PyInt z ∧ z ≠ 0) → c_void_p val = mret (PyVoidP p) → R (PyVoidP p)) →
  keeps a x (_check_res_void_p val func_name args) R.
Proof.
  intros HR w Hw. unfold _check_res_void_p.
  destruct val as [|z|b|t|q]; cbn [py_eq_int].
  - split; [exact Hw|]. intros v Hv. inversion Hv. apply HR; [by left|reflexivity].
  - destruct (Z.eqb_spec z 0) as [->|Hz].
    + unfold _ssl_ERR_get_error, _ssl_ERR_error_string_n, libssl.ERR_get_error,
        libssl.ERR_error_string_n, str_join, mbind, py_bind, mret, py_ret, get_world, raise.
      destruct (err_queue w); destruct (str_items args); cbn;
        (split; [exact Hw|discriminate]).
    + split; [exact Hw|]. intros v Hv. inversion Hv.
      apply HR; [right; eauto|reflexivity].
  - split; [exact Hw|discriminate].
  - split; [exact Hw|discriminate].
  - split; [exact Hw|discriminate].
Qed.

Lemma keeps_checked_void_p (func_name : string) (args : list pyval)
  (native : py pointer) (R : pointer → Prop) :
  keeps a x native R →
  keeps a x (checked_void_p func_name args native)
    (λ v, ∃ p, v = PyVoidP (p `mod` 2 ^ pointer_bits) ∧ R p).
Proof.
  intros Hn. unfold checked_void_p. eapply keeps_bind; [exact Hn|].
  intros p Hp w Hw. rewrite check_res_of_pointer. cbn. split; [exact Hw|].
  intros v Hv. inversion Hv. eauto.
Qed.

Lemma keeps_from_param_c_void_p (v : pyval) :
  keeps a x (from_param_c_void_p v)
    (λ p, match v with
          | PyNone => p = NULL
          | PyInt z => p = z `mod` 2 ^ pointer_bits
          | PyVoidP q => p = q
          | _ => False
          end).
Proof.
  destruct v; cbn [from_param_c_void_p];
    first [apply keeps_ret; reflexivity|apply keeps_crash].
Qed.

Lemma keeps_ssl_BN_bin2bn (s n : pyval) (p : pointer) :
  p ≠ Z.pos a → keeps a x (_ssl_BN_bin2bn s n (PyVoidP p)) (λ _, True).
Proof.
  intros Hp. unfold _ssl_BN_bin2bn.
  apply (keeps_bind _ _ (λ _, True)).
  { destruct s; cbn [from_param_c_char_p];
      first [apply keeps_ret; exact I|apply keeps_raise]. }
  intros cs _. apply (keeps_bind _ _ (λ _, True)).
  { destruct n; cbn [from_param_c_int];
      first [apply keeps_ret; exact I|apply keeps_raise]. }
  intros cn _. eapply keeps_bind; [apply keeps_from_param_c_void_p|].
  intros q ->. eapply keeps_weaken.
  - apply keeps_checked_void_p. apply keeps_BN_bin2bn. exact Hp.
  - auto.
Qed.

Lemma keeps_BinToBN (s : pyval) : keeps a x (BinToBN s) (λ _, True).
Proof.
  unfold BinToBN.
  apply (keeps_bind _ _ (λ bn, ∃ p, bn = PyVoidP p ∧ p ≠ Z.pos a)).
  { unfold _ssl_BN_new. intros w Hw.
    destruct (keeps_BN_new w Hw) as [Hh Hv].
    unfold checked_void_p, mbind, py_bind.
    destruct (BN_new_cases w) as [(b & w1 & Hnew & _ & Hsmall)|(w1 & Hnew)];
      rewrite Hnew in *; rewrite check_res_of_pointer; cbn [fst snd] in *.
    - split; [exact Hh|]. intros v Hv'. inversion Hv'.
      rewrite Z.mod_small by lia. eexists. split; [reflexivity|]. apply Hv. reflexivity.
    - split; [exact Hh|]. intros v Hv'. inversion Hv'.
      eexists. split; [reflexivity|]. discriminate. }
  intros bn (p & -> & Hp).
  apply (keeps_bind _ _ (λ _, True)).
  { destruct s; cbn [len]; first [apply keeps_ret; exact I|apply keeps_raise]. }
  intros n _. eapply keeps_bind; [apply keeps_ssl_BN_bin2bn; exact Hp|].
  intros ret _. destruct ret; apply keeps_ret; exact I.
Qed.

End keeps.

(** X19. [BinToBN] leaves every BIGNUM that exists in place, with its
    value: whatever the argument, whether or not the native library finds
    memory, and however the call ends. *)
Theorem BinToBN_keeps_BIGNUMs (s : pyval) (w : world) (a : positive) (x : Z) :
  bn_heap w !! a = Some x → bn_heap (BinToBN s w).2 !! a = Some x.
Proof.
  intros Ha. apply (keeps_BinToBN a x s w Ha).
Qed.

Lemma BinToBN_keeps_BIGNUMs_witness :
  bn_heap (world_with 7) !! 1%positive = Some 7 ∧
  bn_heap (BinToBN (PyBytes [x01; x02]) (world_with 7)).2 !! 1%positive = Some 7.
Proof.
  split; [reflexivity|].
  exact (BinToBN_keeps_BIGNUMs (PyBytes [x01; x02]) (world_with 7) 1 7 eq_refl).
Defined.

(** ** Encoding, then decoding, in full *)


